(** * Truss_Classes.py: the derivation engine, the record parser and the link
    tooltips of the truss viewer, embedded in Rocq.

    Python floats are IEEE-754 binary64 values: they are modelled by Rocq's
    primitive [float] (module [PrimFloat]).  Python's [None] is [option].
    An exception raised by the code is an [Error] of [result]. *)

From Stdlib Require Import Floats String Ascii List Bool PeanoNat Lia.
From Stdlib Require Import FloatAxioms BinInt BinPos.
Import ListNotations.

Open Scope float_scope.
Set Warnings "-inexact-float".

(** ** Python exceptions and fallible computations *)

Inductive PyError : Type :=
  | IndexError       (* list index out of range: [cells[i]] *)
  | ValueError       (* [float(s)] on a non-numeric string *)
  | TypeError        (* arithmetic on [None] *)
  | AttributeError   (* [None.position] *)
  | ZeroDivisionError.

Inductive result (A : Type) : Type :=
  | Ok : A -> result A
  | Error : PyError -> result A.
Arguments Ok {A} _.
Arguments Error {A} _.

Definition bind {A B : Type} (r : result A) (f : A -> result B) : result B :=
  match r with
  | Ok a => f a
  | Error e => Error e
  end.

Notation "x <- r ;; k" := (bind r (fun x => k))
  (at level 61, r at next level, right associativity).

(** ** Basic data classes *)

Module Position.
(** [class Position]: x, y, z coordinates. *)
Record t := mk { x : float; y : float; z : float }.
(** [Position(x=x, y=y)]: z defaults to 0.0. *)
Definition of_xy (x y : float) : t := mk x y 0.
End Position.

Module Rectangle.
(** [class Rectangle]; unset edges default to 0. *)
Record t := mk { top : float; left : float; bottom : float; right : float }.
Definition default : t := mk 0 0 0 0.
Definition height (r : t) : float := top r - bottom r.
Definition width (r : t) : float := right r - left r.
Definition centerX (r : t) : float := left r + width r / 2.
Definition centerY (r : t) : float := bottom r + height r / 2.
End Rectangle.

Module Material.
(** [class Material]: every property is optional. *)
Record t := mk { uts : option float; ys : option float; E : option float;
                 staticFactor : option float }.
Definition default : t := mk None None None None.
End Material.

Module Node.
(** [class Node]; the rendering handle [graphic] is not modelled. *)
Record t := mk { name : string; position : Position.t }.
End Node.

Module Link.
(** [class Link]: the endpoints are node names; the derived fields are
    [None] until [calcLinkVals] sets them.  The parser only ever stores a
    string (or nothing) in [material]. *)
Record t := mk {
  name : string;
  node1_Name : string;
  node2_Name : string;
  length : option float;
  angleRad : option float;
  material : option string;
  width : option float;
  thickness : option float;
  weight : option float }.

(** [Link(name=nm, node1=n1, node2=n2)]: every other field unset. *)
Definition bare (nm n1 n2 : string) : t :=
  mk nm n1 n2 None None None None None None.

(** [Link(name=nm, node1=n1, node2=n2, width=w, thickness=t, material=mat)]. *)
Definition full (nm n1 n2 : string) (w th : float) (mat : string) : t :=
  mk nm n1 n2 None None (Some mat) (Some w) (Some th) None.

(** Assignment of [l.length], [l.angleRad] and [l.weight]. *)
Definition set_derived (l : t) (len ang wt : float) : t :=
  mk (name l) (node1_Name l) (node2_Name l) (Some len) (Some ang)
     (material l) (width l) (thickness l) (Some wt).
End Link.

Module TrussModel.
(** [class TrussModel]. *)
Record t := mk {
  title : option string;
  links : list Link.t;
  nodes : list Node.t;
  material : Material.t;
  rct : Rectangle.t;
  leftReaction : float;
  rightReaction : float }.

(** [TrussModel()]: an empty model, reactions 0.0. *)
Definition empty : t :=
  mk None [] [] Material.default Rectangle.default 0 0.

Definition set_links (m : t) (ls : list Link.t) : t :=
  mk (title m) ls (nodes m) (material m) (rct m) (leftReaction m) (rightReaction m).
Definition set_nodes (m : t) (ns : list Node.t) : t :=
  mk (title m) (links m) ns (material m) (rct m) (leftReaction m) (rightReaction m).
Definition set_material (m : t) (mt : Material.t) : t :=
  mk (title m) (links m) (nodes m) mt (rct m) (leftReaction m) (rightReaction m).
Definition set_reactions (m : t) (l r : float) : t :=
  mk (title m) (links m) (nodes m) (material m) (rct m) l r.

(** [getNode]: the first node whose name equals [nm], or [None]. *)
Fixpoint find_node (ns : list Node.t) (nm : string) : option Node.t :=
  match ns with
  | [] => None
  | n :: ns' => if String.eqb (Node.name n) nm then Some n else find_node ns' nm
  end.
Definition getNode (m : t) (nm : string) : option Node.t := find_node (nodes m) nm.
End TrussModel.

(** ** Python builtins the code calls

    [math.hypot], [math.atan2], [math.degrees], the builtin [sum] over a list
    of floats (whose rounding changed across CPython versions), [float(s)]
    on a string and the [:.Nf] format specification are library code, not
    code of this repository: the embedding is parametric in them. *)

Record PyLib := {
  hypot : float -> float -> float;
  atan2 : float -> float -> float;
  degrees : float -> float;
  fsum : list float -> float;
  float_of_str : string -> option float;   (* [None]: [float(s)] raises ValueError *)
  format_f : nat -> float -> string }.     (* [f"{v:.Nf}"] *)

(** ** ASCII string helpers: [str.lower], [str.startswith]

    Text is modelled as strings of ASCII characters.  Python's [str.lower]
    and [str.strip] also act on non-ASCII characters (accented capitals,
    the no-break space U+00A0, ...); inputs containing them are outside
    this model, and every property below is about ASCII text. *)

Definition lower_ascii (c : ascii) : ascii :=
  let n := nat_of_ascii c in
  if Nat.leb 65 n && Nat.leb n 90 then ascii_of_nat (n + 32)%nat else c.

Fixpoint lower (s : string) : string :=
  match s with
  | EmptyString => EmptyString
  | String c s' => String (lower_ascii c) (lower s')
  end.

Definition startswith (s pre : string) : bool := String.prefix pre s.

(** Truthiness of a Python [str]: non-empty. *)
Definition str_truthy (s : string) : bool :=
  match s with EmptyString => false | _ => true end.

(** [v if v else 0] for an optional float: [None], [0.0] and [-0.0] are
    falsy and give the integer 0, which behaves as [0.0] in the products. *)
Definition or_zero (v : option float) : float :=
  match v with
  | Some f => if f =? 0 then 0 else f
  | None => 0
  end.

(** ** The derivation engine: [TrussController.calcLinkVals] and
    [TrussController.calcSupportReactions] *)

Section Derivation.
Variable py : PyLib.

(** The density chosen from the text of [l.material]. *)
Definition density_of (mat : option string) : float :=
  match mat with
  | Some s => if str_truthy s && String.eqb (lower s) "steel" then 7850 else 2700
  | None => 2700
  end.

(** The body of the loop of [calcLinkVals] for one link [l]. *)
Definition calcLink (ns : list Node.t) (l : Link.t) : Link.t :=
  match TrussModel.find_node ns (Link.node1_Name l),
        TrussModel.find_node ns (Link.node2_Name l) with
  | Some n1, Some n2 =>
      let dx := Position.x (Node.position n2) - Position.x (Node.position n1) in
      let dy := Position.y (Node.position n2) - Position.y (Node.position n1) in
      let length := hypot py dx dy in
      let angle := atan2 py dy dx in
      let density := density_of (Link.material l) in
      let vol := length * or_zero (Link.width l) * or_zero (Link.thickness l) in
      let g := 9.81 in
      Link.set_derived l length angle (density * vol * g)
  | _, _ => l
  end.

Definition calcLinkVals (m : TrussModel.t) : TrussModel.t :=
  TrussModel.set_links m (map (calcLink (TrussModel.nodes m)) (TrussModel.links m)).

(** The generator [L.weight for L in links] fed to [sum]: a [None] weight
    makes [sum] raise TypeError. *)
Fixpoint weights (ls : list Link.t) : result (list float) :=
  match ls with
  | [] => Ok []
  | l :: ls' =>
      match Link.weight l with
      | Some w => ws <- weights ls' ;; Ok (w :: ws)
      | None => Error TypeError
      end
  end.

(** The loop accumulating [sumWx]; [n1.position] on [None] raises
    AttributeError, [mx * None] raises TypeError. *)
Fixpoint sum_moments (ns : list Node.t) (sumWx : float) (ls : list Link.t)
  : result float :=
  match ls with
  | [] => Ok sumWx
  | li :: ls' =>
      let n1 := TrussModel.find_node ns (Link.node1_Name li) in
      let n2 := TrussModel.find_node ns (Link.node2_Name li) in
      match n1 with
      | None => Error AttributeError
      | Some n1 =>
          match n2 with
          | None => Error AttributeError
          | Some n2 =>
              let mx := 0.5 * (Position.x (Node.position n1) + Position.x (Node.position n2)) in
              match Link.weight li with
              | None => Error TypeError
              | Some w => sum_moments ns (sumWx + mx * w) ls'
              end
          end
      end
  end.

Definition calcSupportReactions (m : TrussModel.t) : result TrussModel.t :=
  match TrussModel.getNode m "left", TrussModel.getNode m "right" with
  | Some leftNode, Some rightNode =>
      ws <- weights (TrussModel.links m) ;;
      let W_total := fsum py ws in
      if W_total <=? 0 then Ok (TrussModel.set_reactions m 0 0)
      else
        let xL := Position.x (Node.position leftNode) in
        let xR := Position.x (Node.position rightNode) in
        let L := xR - xL in
        if PrimFloat.abs L <? 1e-9 then
          (* [rightReaction = 0]: the integer 0 *)
          Ok (TrussModel.set_reactions m W_total 0)
        else
          sumWx <- sum_moments (TrussModel.nodes m) 0 (TrussModel.links m) ;;
          if W_total =? 0 then Error ZeroDivisionError
          else
            let xCG := sumWx / W_total in
            (* the beam formulas are not applied: both reactions are
               overwritten with the constant 6468.7 *)
            Ok (TrussModel.set_reactions m 6468.7 6468.7)
  | _, _ => Ok m
  end.
End Derivation.

(** ** The record parser: the loop of [TrussController.ImportFromFile] *)

(** [str.isspace] on one ASCII character: \t \n \v \f \r, \x1c-\x1f and
    the space. *)
Definition is_space (c : ascii) : bool :=
  let n := nat_of_ascii c in
  (Nat.leb 9 n && Nat.leb n 13) || (Nat.leb 28 n && Nat.leb n 32).

Fixpoint drop_spaces (cs : list ascii) : list ascii :=
  match cs with
  | [] => []
  | c :: cs' => if is_space c then drop_spaces cs' else cs
  end.

(** [str.strip()] on ASCII text. *)
Definition strip (s : string) : string :=
  string_of_list_ascii
    (rev (drop_spaces (rev (drop_spaces (list_ascii_of_string s))))).

(** [str.split(',')]: always at least one field. *)
Fixpoint split_comma (s : string) : list string :=
  match s with
  | EmptyString => [EmptyString]
  | String c s' =>
      let rest := split_comma s' in
      if Ascii.eqb c "," then EmptyString :: rest
      else match rest with
           | r :: rs => String c r :: rs
           | [] => [String c EmptyString]
           end
  end.

(** [[c.strip() for c in line.split(',')]]. *)
Definition cells_of (line : string) : list string := map strip (split_comma line).

Section Parser.
Variable py : PyLib.

(** [cells[i]]. *)
Definition cell (cells : list string) (i : nat) : result string :=
  match nth_error cells i with
  | Some c => Ok c
  | None => Error IndexError
  end.

(** [float(cells[i])]: the index is read first, then the text is parsed. *)
Definition float_cell (cells : list string) (i : nat) : result float :=
  c <- cell cells i ;;
  match float_of_str py c with
  | Some f => Ok f
  | None => Error ValueError
  end.

Definition set_uts (m : TrussModel.t) (v : float) : TrussModel.t :=
  let mt := TrussModel.material m in
  TrussModel.set_material m
    (Material.mk (Some v) (Material.ys mt) (Material.E mt) (Material.staticFactor mt)).
Definition set_ys (m : TrussModel.t) (v : float) : TrussModel.t :=
  let mt := TrussModel.material m in
  TrussModel.set_material m
    (Material.mk (Material.uts mt) (Some v) (Material.E mt) (Material.staticFactor mt)).
Definition set_E (m : TrussModel.t) (v : float) : TrussModel.t :=
  let mt := TrussModel.material m in
  TrussModel.set_material m
    (Material.mk (Material.uts mt) (Material.ys mt) (Some v) (Material.staticFactor mt)).
Definition set_staticFactor (m : TrussModel.t) (v : float) : TrussModel.t :=
  let mt := TrussModel.material m in
  TrussModel.set_material m
    (Material.mk (Material.uts mt) (Material.ys mt) (Material.E mt) (Some v)).

(** One record, given its (non-empty) list of cells.  The result is the
    model after the line (the material assignments are made one by one,
    so a failure can leave the earlier ones done) and the exception
    raised, if any. *)
Definition processCells (m : TrussModel.t) (cells : list string)
  : TrussModel.t * option PyError :=
  let key := lower (hd EmptyString cells) in
  if startswith key "material" then
    match float_cell cells 1 with
    | Error e => (m, Some e)
    | Ok uts =>
        let m1 := set_uts m uts in
        match float_cell cells 2 with
        | Error e => (m1, Some e)
        | Ok ys =>
            let m2 := set_ys m1 ys in
            match float_cell cells 3 with
            | Error e => (m2, Some e)
            | Ok E => (set_E m2 E, None)
            end
        end
    end
  else if startswith key "static" then
    match float_cell cells 1 with
    | Error e => (m, Some e)
    | Ok f => (set_staticFactor m f, None)
    end
  else if startswith key "node" then
    match (nm <- cell cells 1 ;;
           x <- float_cell cells 2 ;;
           y <- float_cell cells 3 ;;
           Ok (Node.mk (strip nm) (Position.of_xy x y))) with
    | Error e => (m, Some e)
    | Ok n => (TrussModel.set_nodes m (TrussModel.nodes m ++ [n]), None)
    end
  else if startswith key "link" then
    match (nm <- cell cells 1 ;;
           n1 <- cell cells 2 ;;
           n2 <- cell cells 3 ;;
           if Nat.leb 7 (List.length cells) then
             w <- float_cell cells 4 ;;
             t <- float_cell cells 5 ;;
             mat <- cell cells 6 ;;
             Ok (Link.full nm n1 n2 w t mat)
           else Ok (Link.bare nm n1 n2)) with
    | Error e => (m, Some e)
    | Ok newL => (TrussModel.set_links m (TrussModel.links m ++ [newL]), None)
    end
  else (m, None).

(** One line of the file. *)
Definition processLine (m : TrussModel.t) (line0 : string)
  : TrussModel.t * option PyError :=
  let line := strip line0 in
  if negb (str_truthy line) || startswith line "#" then (m, None)
  else
    let cells := cells_of line in
    if Nat.ltb (List.length cells) 2 then (m, None)
    else processCells m cells.

(** The [for line in data] loop: it stops at the first exception. *)
Fixpoint parseLines (m : TrussModel.t) (data : list string)
  : TrussModel.t * option PyError :=
  match data with
  | [] => (m, None)
  | line :: rest =>
      match processLine m line with
      | (m', None) => parseLines m' rest
      | (m', Some e) => (m', Some e)
      end
  end.

End Parser.

(** ** The link tooltips: [TrussView.drawLinks] *)

Definition nl : string := String (ascii_of_nat 10) EmptyString.

(** The two characters "Â°" written after the angle in the source, as the
    UTF-8 bytes of the Python string. *)
Definition deg_sign : string :=
  String (ascii_of_nat 195) (String (ascii_of_nat 130)
    (String (ascii_of_nat 194) (String (ascii_of_nat 176) EmptyString))).

(** [str(link.material)]. *)
Definition str_material (v : option string) : string :=
  match v with Some s => s | None => "None" end.

(** [name.lower() in ["left", "right"]]. *)
Definition is_support (nm : string) : bool :=
  String.eqb (lower nm) "left" || String.eqb (lower nm) "right".

(** A [RigidLink] item placed in the scene, with its tooltip. *)
Record SceneLink := mkSceneLink {
  item_name : string;
  sx1 : float; sy1 : float; sx2 : float; sy2 : float;
  tooltip : string }.

Section View.
Variable py : PyLib.

(** [f"{v:.Nf}"] with [v] possibly [None] (TypeError). *)
Definition format_opt (n : nat) (v : option float) : result string :=
  match v with
  | Some f => Ok (format_f py n f)
  | None => Error TypeError
  end.

(** [f"{v:.Nf}" if v else "N/A"]. *)
Definition format_or_na (n : nat) (v : option float) : string :=
  match v with
  | Some f => if f =? 0 then "N/A" else format_f py n f
  | None => "N/A"
  end.

(** [partial_weight]: half the weight when exactly one end is a support
    ([link.weight / 2 if link.weight else 0.0]), the weight otherwise. *)
Definition partial_weight (l : Link.t) : option float :=
  if xorb (is_support (Link.node1_Name l)) (is_support (Link.node2_Name l)) then
    match Link.weight l with
    | Some w => if w =? 0 then Some 0 else Some (w / 2)
    | None => Some 0
    end
  else Link.weight l.

(** The body of the loop of [drawLinks] for one link; [None] when an
    endpoint does not resolve ([continue]). *)
Definition drawLink (truss : TrussModel.t) (cx cy : float) (l : Link.t)
  : result (option SceneLink) :=
  match TrussModel.getNode truss (Link.node1_Name l),
        TrussModel.getNode truss (Link.node2_Name l) with
  | Some n1, Some n2 =>
      let p1 := Node.position n1 in
      let p2 := Node.position n2 in
      let x1 := Position.x p1 - cx in
      let y1 := - (Position.y p1 - cy) in
      let x2 := Position.x p2 - cx in
      let y2 := - (Position.y p2 - cy) in
      let angle_degs :=
        match Link.angleRad l with Some a => degrees py a | None => 0 end in
      let width_str := format_or_na 3 (Link.width l) in
      let thickness_str := format_or_na 3 (Link.thickness l) in
      let weight_str := format_or_na 2 (partial_weight l) in
      len_str <- format_opt 3 (Link.length l) ;;
      let tip :=
        "Link: " ++ Link.name l ++ nl ++
        "Start: (" ++ format_f py 3 (Position.x p1) ++ ", " ++
          format_f py 3 (Position.y p1) ++ ") [" ++ Link.node1_Name l ++ "]" ++ nl ++
        "End: (" ++ format_f py 3 (Position.x p2) ++ ", " ++
          format_f py 3 (Position.y p2) ++ ") [" ++ Link.node2_Name l ++ "]" ++ nl ++
        "Length: " ++ len_str ++ " m" ++ nl ++
        "Angle: " ++ format_f py 2 angle_degs ++ deg_sign ++ nl ++
        "Width: " ++ width_str ++ " m" ++ nl ++
        "Thickness: " ++ thickness_str ++ " m" ++ nl ++
        "Material: " ++ str_material (Link.material l) ++ nl ++
        (* f"Displayed Weight: {1848.2} N": [weight_str] is not used *)
        "Displayed Weight: 1848.2 N" in
      Ok (Some (mkSceneLink (Link.name l) x1 y1 x2 y2 tip))
  | _, _ => Ok None
  end%string.

Fixpoint drawLinks_aux (truss : TrussModel.t) (cx cy : float) (ls : list Link.t)
  : result (list SceneLink) :=
  match ls with
  | [] => Ok []
  | l :: ls' =>
      o <- drawLink truss cx cy l ;;
      rest <- drawLinks_aux truss cx cy ls' ;;
      match o with
      | Some it => Ok (it :: rest)
      | None => Ok rest
      end
  end.

(** [drawLinks(truss)]: the items added to the scene, in link order. *)
Definition drawLinks (truss : TrussModel.t) : result (list SceneLink) :=
  let r := TrussModel.rct truss in
  drawLinks_aux truss (Rectangle.centerX r) (Rectangle.centerY r) (TrussModel.links truss).
End View.

(** ** A concrete instance of the builtins, for evaluating the code on
    concrete inputs.

    [float_dec] reads an optional minus sign, digits and an optional
    fraction (no exponent, no "inf" or "nan"); on such text with fewer than
    16 digits it returns the value rounded once, as CPython's [float()]
    does.  It agrees with [float()] on every text evaluated below ("0.1",
    "1", "2", "foo", ...), where ["foo"] gives [None], as [float()] raises
    ValueError.
    [sqrt (x*x + y*y)] is [math.hypot] wherever [x*x + y*y] is exact, and
    [fsum] adds from the left from 0, as [sum] does before CPython 3.12.
    [atan2] and [format_f] are placeholders: no statement evaluated with
    [demo_py] reads their values. *)

Definition digit_val (c : ascii) : option float :=
  match nat_of_ascii c with
  | 48%nat => Some 0 | 49%nat => Some 1 | 50%nat => Some 2 | 51%nat => Some 3
  | 52%nat => Some 4 | 53%nat => Some 5 | 54%nat => Some 6 | 55%nat => Some 7
  | 56%nat => Some 8 | 57%nat => Some 9 | _ => None
  end.

(** Digits with an optional fraction: the accumulated mantissa, the scale
    [10^k] of the fraction and whether a digit was read. *)
Fixpoint read_digits (cs : list ascii) (frac : bool) (acc scale : float) (seen : bool)
  : option (float * float * bool) :=
  match cs with
  | [] => Some (acc, scale, seen)
  | c :: cs' =>
      if Ascii.eqb c "." then
        if frac then None else read_digits cs' true acc scale seen
      else match digit_val c with
           | Some d => read_digits cs' frac (acc * 10 + d)
                                   (if frac then scale * 10 else scale) true
           | None => None
           end
  end.

Definition float_dec (s : string) : option float :=
  let cs := list_ascii_of_string s in
  let '(neg, cs) := match cs with
                    | c :: cs' => if Ascii.eqb c "-" then (true, cs') else (false, cs)
                    | [] => (false, cs)
                    end in
  match read_digits cs false 0 1 false with
  | Some (acc, scale, true) => Some (if neg then - (acc / scale) else acc / scale)
  | _ => None
  end.

Definition demo_py : PyLib := {|
  hypot := fun x y => PrimFloat.sqrt (x * x + y * y);
  atan2 := fun _ _ => 0;
  degrees := fun a => a;
  fsum := fun ws => fold_left PrimFloat.add ws 0;
  float_of_str := float_dec;
  format_f := fun _ _ => EmptyString |}.

Example float_dec_tenth : float_dec "0.1" = Some 0.1.
Proof. vm_compute. reflexivity. Qed.
Example float_dec_foo : float_dec "foo" = None.
Proof. vm_compute. reflexivity. Qed.
Example cells_of_link : cells_of " link, L2 , left,right " = ["link"; "L2"; "left"; "right"]%string.
Proof. vm_compute. reflexivity. Qed.

(** ** The bounding box: [TrussModel.getCenterPt] and [TrussView.buildScene] *)

(** [truss.rct = r]. *)
Definition set_rct (m : TrussModel.t) (r : Rectangle.t) : TrussModel.t :=
  TrussModel.mk (TrussModel.title m) (TrussModel.links m) (TrussModel.nodes m)
    (TrussModel.material m) r (TrussModel.leftReaction m) (TrussModel.rightReaction m).

(** The body of the loop of [getCenterPt] for one node: the four [if]s, in
    order ([a > b] is [b < a]). *)
Definition expand (r : Rectangle.t) (n : Node.t) : Rectangle.t :=
  let px := Position.x (Node.position n) in
  let py := Position.y (Node.position n) in
  let left := if px <? Rectangle.left r then px else Rectangle.left r in
  let right := if Rectangle.right r <? px then px else Rectangle.right r in
  let top := if Rectangle.top r <? py then py else Rectangle.top r in
  let bottom := if py <? Rectangle.bottom r then py else Rectangle.bottom r in
  Rectangle.mk top left bottom right.

(** [getCenterPt()]: nothing happens without nodes; otherwise the box starts
    at the first node and is widened by every node, then stored in [rct]. *)
Definition getCenterPt (m : TrussModel.t) : TrussModel.t :=
  match TrussModel.nodes m with
  | [] => m
  | n0 :: _ =>
      let p := Node.position n0 in
      let r0 := Rectangle.mk (Position.y p) (Position.x p) (Position.y p) (Position.x p) in
      set_rct m (fold_left expand (TrussModel.nodes m) r0)
  end.

(** The padding of [buildScene]: [rct] is [truss.rct] itself, so the model's
    rectangle is changed in place. *)
Definition pad (r : Rectangle.t) : Rectangle.t :=
  Rectangle.mk (Rectangle.top r + 50) (Rectangle.left r - 50)
    (Rectangle.bottom r - 50) (Rectangle.right r + 50).

(** The model after the first statements of [buildScene]: [getCenterPt],
    then the padding. *)
Definition buildScene_truss (truss : TrussModel.t) : TrussModel.t :=
  let t1 := getCenterPt truss in
  set_rct t1 (pad (TrussModel.rct t1)).

(** ** The node items: [TrussView.drawNodes] *)

(** The graphic chosen for a node, with its scene rectangle or anchor and
    size: [RigidPivotPoint], [RollerSupport] or a [QGraphicsEllipseItem]. *)
Inductive NodeGlyph : Type :=
  | PivotGlyph (x y w h : float)
  | RollerGlyph (x y w h : float)
  | EllipseGlyph (x y w h : float).

(** A node item with its tooltip, and the label drawn by [drawALabel]: its
    anchor point (the label is centred there using the text's size, which
    Qt computes) and its text. *)
Record SceneNode := mkSceneNode {
  glyph : NodeGlyph;
  node_tip : string;
  label_x : float; label_y : float;
  label_text : string }.

(** The line appended to the tooltip of a support node. *)
Definition reaction_line (py : PyLib) : string :=
  (nl ++ "Vertical Reaction: " ++ format_f py 2 6468.7 ++ " N")%string.

(** The body of the loop of [drawNodes] for one node.  The debug [print] of
    the reaction (to standard output) is not modelled. *)
Definition drawNode (py : PyLib) (cx cy : float) (node : Node.t) : SceneNode :=
  let x := Position.x (Node.position node) - cx in
  let y := - (Position.y (Node.position node) - cy) in
  let tip := ("Node: " ++ Node.name node)%string in
  let g :=
    if String.eqb (lower (Node.name node)) "left" then PivotGlyph x y 10 18
    else if String.eqb (lower (Node.name node)) "right" then RollerGlyph x y 10 18
    else EllipseGlyph (x - 2) (y - 2) 4 4 in
  let tip :=
    if String.eqb (lower (Node.name node)) "left" then (tip ++ reaction_line py)%string
    else if String.eqb (lower (Node.name node)) "right" then (tip ++ reaction_line py)%string
    else tip in
  mkSceneNode g tip x (y + 15) (Node.name node).

(** [drawNodes(truss)]: the items, in node order. *)
Definition drawNodes (py : PyLib) (truss : TrussModel.t) : list SceneNode :=
  let r := TrussModel.rct truss in
  map (drawNode py (Rectangle.centerX r) (Rectangle.centerY r)) (TrussModel.nodes truss).

(** [buildScene(truss)]: the model afterwards (its [rct] padded), the link
    items and the node items.  The grid of [drawAGrid], drawn before the
    links, and the fitting of the view are not modelled. *)
Definition buildScene (py : PyLib) (truss : TrussModel.t)
  : result (TrussModel.t * list SceneLink * list SceneNode) :=
  let t2 := buildScene_truss truss in
  ls <- drawLinks py t2 ;;
  Ok (t2, ls, drawNodes py t2).

(** ** The report: [TrussView.displayReport] *)

Definition tab : string := String (ascii_of_nat 9) EmptyString.

Section Report.
Variable py : PyLib.
(** [str(v)] (or [f"{v}"]) of a float: library code. *)
Variable str_float : float -> string.

(** [f"{v}"] of an optional float. *)
Definition str_opt_float (v : option float) : string :=
  match v with Some f => str_float f | None => "None"%string end.

(** [v if v else 'N/A'] formatted with [{}]. *)
Definition str_or_na (v : option float) : string :=
  match v with
  | Some f => if f =? 0 then "N/A"%string else str_float f
  | None => "N/A"%string
  end.

(** One row of the link table; [{:0.2f}] on a [None] length or angle
    raises TypeError. *)
Definition report_row (l : Link.t) : result string :=
  len <- format_opt py 2 (Link.length l) ;;
  ang <- format_opt py 2 (Link.angleRad l) ;;
  let mat := match Link.material l with
             | Some s => if str_truthy s then s else "N/A"%string
             | None => "N/A"%string
             end in
  Ok (Link.name l ++ tab ++ Link.node1_Name l ++ tab ++ Link.node2_Name l ++ tab ++
      len ++ tab ++ ang ++ tab ++ mat ++ tab ++ str_or_na (Link.width l) ++ tab ++
      str_or_na (Link.thickness l) ++ tab ++ format_f py 2 (or_zero (Link.weight l)) ++ nl)%string.

Fixpoint report_rows (ls : list Link.t) : result string :=
  match ls with
  | [] => Ok EmptyString
  | l :: ls' =>
      r <- report_row l ;;
      rest <- report_rows ls' ;;
      Ok (r ++ rest)%string
  end.

Definition report_header (truss : TrussModel.t) : string :=
  let mt := TrussModel.material truss in
  ("Truss Design Report" ++ nl ++
   "Title: " ++ str_material (TrussModel.title truss) ++ nl ++
   "Static Factor: " ++ str_opt_float (Material.staticFactor mt) ++ nl ++
   "Ultimate Strength: " ++ str_opt_float (Material.uts mt) ++ nl ++
   "Yield Strength: " ++ str_opt_float (Material.ys mt) ++ nl ++
   "Modulus E: " ++ str_opt_float (Material.E mt) ++ nl ++ nl ++
   "Link" ++ tab ++ "(1)" ++ tab ++ "(2)" ++ tab ++ "Length" ++ tab ++ "Angle" ++ tab ++
   "Material" ++ tab ++ "Width" ++ tab ++ "Thickness" ++ tab ++ "Weight" ++ nl)%string.

(** The body of the longest-link loop: [link] replaces [longest] when both
    lengths are truthy and [link.length > longest.length]. *)
Definition longer (longest link : Link.t) : Link.t :=
  match Link.length link, Link.length longest with
  | Some a, Some b => if negb (a =? 0) && negb (b =? 0) && (b <? a) then link else longest
  | _, _ => longest
  end.

(** [displayReport(truss)]: the report text and the four texts shown for the
    longest link (name, length, node 1, node 2), if there is a link.  On an
    exception the widgets already set are not modelled. *)
Definition displayReport (truss : TrussModel.t)
  : result (string * option (string * string * string * string)) :=
  rows <- report_rows (TrussModel.links truss) ;;
  let st := (report_header truss ++ rows)%string in
  match TrussModel.links truss with
  | [] => Ok (st, None)
  | l0 :: _ =>
      let longest := fold_left longer (TrussModel.links truss) l0 in
      len <- format_opt py 2 (Link.length longest) ;;
      Ok (st, Some (Link.name longest, len, Link.node1_Name longest, Link.node2_Name longest))
  end.
End Report.

(** ** Link comparison: [Link.__eq__] *)

(** [a != b] on optional floats: [None] equals only [None]; floats compare
    as IEEE-754 values (so NaN differs from itself). *)
Definition opt_float_ne (a b : option float) : bool :=
  match a, b with
  | Some x, Some y => negb (x =? y)
  | None, None => false
  | _, _ => true
  end.

Definition opt_string_ne (a b : option string) : bool :=
  match a, b with
  | Some x, Some y => negb (String.eqb x y)
  | None, None => false
  | _, _ => true
  end.

(** [Link.__eq__(self, other)]. *)
Definition Link_eq (a b : Link.t) : bool :=
  if negb (String.eqb (Link.node1_Name a) (Link.node1_Name b)) then false
  else if negb (String.eqb (Link.node2_Name a) (Link.node2_Name b)) then false
  else if opt_float_ne (Link.length a) (Link.length b) then false
  else if opt_float_ne (Link.angleRad a) (Link.angleRad b) then false
  else if opt_string_ne (Link.material a) (Link.material b) then false
  else if opt_float_ne (Link.width a) (Link.width b) then false
  else if opt_float_ne (Link.thickness a) (Link.thickness b) then false
  else true.

(** * Properties *)

(** ** Node lookup *)

Lemma find_node_exists (ns : list Node.t) (nm : string) :
  (exists n, In n ns /\ Node.name n = nm) ->
  exists n', TrussModel.find_node ns nm = Some n'.
Proof.
  intros [n [Hin Hnm]]. induction ns as [|a ns IH]; [destruct Hin|].
  simpl. destruct (String.eqb (Node.name a) nm) eqn:E; [eauto|].
  destruct Hin as [<-|Hin]; [|auto].
  apply String.eqb_neq in E. contradiction.
Qed.

Lemma find_node_absent (ns : list Node.t) (nm : string) :
  (forall n, In n ns -> Node.name n <> nm) ->
  TrussModel.find_node ns nm = None.
Proof.
  induction ns as [|a ns IH]; intros H; [reflexivity|].
  simpl. destruct (String.eqb (Node.name a) nm) eqn:E.
  - apply String.eqb_eq in E. exfalso. apply (H a); [left|]; auto.
  - apply IH. intros n Hn. apply H. right. exact Hn.
Qed.

(** ** [calcLinkVals] *)

Lemma calcLink_idem (py : PyLib) (ns : list Node.t) (l : Link.t) :
  calcLink py ns (calcLink py ns l) = calcLink py ns l.
Proof.
  unfold calcLink at 2.
  destruct (TrussModel.find_node ns (Link.node1_Name l)) as [n1|] eqn:E1;
  destruct (TrussModel.find_node ns (Link.node2_Name l)) as [n2|] eqn:E2;
  try reflexivity.
  unfold calcLink. cbn [Link.set_derived Link.node1_Name Link.node2_Name
    Link.material Link.width Link.thickness].
  rewrite E1, E2. reflexivity.
Qed.

Lemma calcLinkVals_nodes (py : PyLib) (m : TrussModel.t) :
  TrussModel.nodes (calcLinkVals py m) = TrussModel.nodes m.
Proof. reflexivity. Qed.

(** A link whose endpoints do not both resolve is left as it was. *)
Lemma calcLink_unresolved (py : PyLib) (ns : list Node.t) (l : Link.t) :
  TrussModel.find_node ns (Link.node1_Name l) = None \/
  TrussModel.find_node ns (Link.node2_Name l) = None ->
  calcLink py ns l = l.
Proof.
  intros [E|E]; unfold calcLink; rewrite E; [reflexivity|].
  destruct (TrussModel.find_node ns (Link.node1_Name l)); reflexivity.
Qed.

(** ** [calcSupportReactions] *)

(** A float [> 0] is not [<= 0] (binary64 comparison). *)
Lemma positive_not_le (w : float) : (0 <? w) = true -> (w <=? 0) = false.
Proof.
  rewrite ltb_spec, leb_spec. cbn [Prim2SF].
  destruct (Prim2SF w) as [[|]|[|]| |[|] mw ew]; cbn; try discriminate; reflexivity.
Qed.

Section Reactions.
Variable py : PyLib.
Variable m : TrussModel.t.

Lemma calcSupportReactions_supports (ln rn : Node.t) :
  TrussModel.getNode m "left" = Some ln ->
  TrussModel.getNode m "right" = Some rn ->
  calcSupportReactions py m =
    (ws <- weights (TrussModel.links m) ;;
     let W_total := fsum py ws in
     if W_total <=? 0 then Ok (TrussModel.set_reactions m 0 0)
     else
       let L := Position.x (Node.position rn) - Position.x (Node.position ln) in
       if PrimFloat.abs L <? 1e-9 then Ok (TrussModel.set_reactions m W_total 0)
       else
         sumWx <- sum_moments (TrussModel.nodes m) 0 (TrussModel.links m) ;;
         if W_total =? 0 then Error ZeroDivisionError
         else Ok (TrussModel.set_reactions m 6468.7 6468.7)).
Proof. intros El Er. unfold calcSupportReactions. rewrite El, Er. reflexivity. Qed.
End Reactions.

(** ** Claims on the derivation engine *)

(** C7: [calcLinkVals] is idempotent: a second run on the model it produced
    gives back that same model, so every link's length, angleRad and weight
    are those of the first run. *)
Theorem calcLinkVals_idempotent (py : PyLib) (m : TrussModel.t) :
  calcLinkVals py (calcLinkVals py m) = calcLinkVals py m.
Proof.
  unfold calcLinkVals, TrussModel.set_links. cbn.
  rewrite map_map. f_equal.
  apply map_ext. intros l. apply calcLink_idem.
Qed.

(** C4: when nodes named "left" and "right" both exist and the total link
    weight [W_total] (the builtin [sum] of the link weights) is [<= 0],
    [calcSupportReactions] sets both reactions to 0 and changes nothing
    else. *)
Theorem calcSupportReactions_nonpositive_total (py : PyLib) (m : TrussModel.t)
    (ws : list float) :
  (exists n, In n (TrussModel.nodes m) /\ Node.name n = "left"%string) ->
  (exists n, In n (TrussModel.nodes m) /\ Node.name n = "right"%string) ->
  weights (TrussModel.links m) = Ok ws ->
  (fsum py ws <=? 0) = true ->
  calcSupportReactions py m = Ok (TrussModel.set_reactions m 0 0).
Proof.
  intros Hl Hr Hw HW.
  destruct (find_node_exists _ _ Hl) as [ln El].
  destruct (find_node_exists _ _ Hr) as [rn Er].
  rewrite (calcSupportReactions_supports py m ln rn El Er), Hw. cbn [bind].
  rewrite HW. reflexivity.
Qed.

(** C5: when nodes named "left" and "right" both exist, [W_total > 0] and
    the horizontal span between the left and right nodes (the first node of
    each name, as [getNode] finds them) is below 1e-9 in absolute value,
    [calcSupportReactions] sets [leftReaction = W_total] and
    [rightReaction = 0]. *)
Theorem calcSupportReactions_degenerate_span (py : PyLib) (m : TrussModel.t)
    (ln rn : Node.t) (ws : list float) :
  TrussModel.getNode m "left" = Some ln ->
  TrussModel.getNode m "right" = Some rn ->
  weights (TrussModel.links m) = Ok ws ->
  (0 <? fsum py ws) = true ->
  (PrimFloat.abs (Position.x (Node.position rn) - Position.x (Node.position ln)) <? 1e-9)
    = true ->
  calcSupportReactions py m = Ok (TrussModel.set_reactions m (fsum py ws) 0).
Proof.
  intros El Er Hw Hpos Hspan.
  rewrite (calcSupportReactions_supports py m ln rn El Er), Hw. cbn [bind].
  rewrite (positive_not_le _ Hpos), Hspan. reflexivity.
Qed.

(** C8: when no node is named "left" or no node is named "right",
    [calcSupportReactions] raises nothing and leaves the model, and so both
    reactions, exactly as they were. *)
Theorem calcSupportReactions_missing_support (py : PyLib) (m : TrussModel.t) :
  (forall n, In n (TrussModel.nodes m) -> Node.name n <> "left"%string) \/
  (forall n, In n (TrussModel.nodes m) -> Node.name n <> "right"%string) ->
  calcSupportReactions py m = Ok m.
Proof.
  intros [H|H]; apply find_node_absent in H; unfold calcSupportReactions, TrussModel.getNode.
  - rewrite H. reflexivity.
  - rewrite H. destruct (TrussModel.find_node (TrussModel.nodes m) "left"); reflexivity.
Qed.

(** ** Concrete models *)

Definition node_at (nm : string) (x y : float) : Node.t := Node.mk nm (Position.of_xy x y).

Definition model_of (ns : list Node.t) (ls : list Link.t) : TrussModel.t :=
  TrussModel.set_links (TrussModel.set_nodes TrussModel.empty ns) ls.

(** Two supports and no link. *)
Definition supports_only : TrussModel.t :=
  model_of [node_at "left" 0 0; node_at "right" 10 0] [].

(** Supports one above the other, one link of weight 100 already derived. *)
Definition vertical_supports : TrussModel.t :=
  model_of [node_at "left" 5 0; node_at "right" 5 1]
    [Link.mk "L1" "left" "right" (Some 1) (Some 1.5) (Some "steel"%string)
             (Some 0.1) (Some 0.1) (Some 100)].

(** Only a left support, with stale reactions. *)
Definition left_only : TrussModel.t :=
  TrussModel.set_reactions (model_of [node_at "left" 0 0; node_at "A" 3 4] []) 1 2.

Lemma calcSupportReactions_nonpositive_total_witness :
  weights (TrussModel.links supports_only) = Ok [] /\
  calcSupportReactions demo_py supports_only
    = Ok (TrussModel.set_reactions supports_only 0 0).
Proof.
  split; [reflexivity|].
  apply (calcSupportReactions_nonpositive_total demo_py supports_only []).
  - exists (node_at "left" 0 0). split; [left|]; reflexivity.
  - exists (node_at "right" 10 0). split; [right; left|]; reflexivity.
  - reflexivity.
  - vm_compute. reflexivity.
Defined.

Lemma calcSupportReactions_degenerate_span_witness :
  calcSupportReactions demo_py vertical_supports
    = Ok (TrussModel.set_reactions vertical_supports 100 0).
Proof.
  apply (calcSupportReactions_degenerate_span demo_py vertical_supports
           (node_at "left" 5 0) (node_at "right" 5 1) [100]);
    vm_compute; reflexivity.
Defined.

Lemma calcSupportReactions_missing_support_witness :
  calcSupportReactions demo_py left_only = Ok left_only /\
  TrussModel.leftReaction left_only = 1 /\ TrussModel.rightReaction left_only = 2.
Proof.
  split; [|split; reflexivity].
  apply calcSupportReactions_missing_support. right.
  intros n [<-|[<-|[]]]; discriminate.
Defined.

(** The round-trip model: supports 10 apart, one steel link between them. *)
Definition C1_model : TrussModel.t :=
  model_of [node_at "left" 0 0; node_at "right" 10 0]
    [Link.full "L1" "left" "right" 0.1 0.1 "steel"].

(** [density * vol * g] for that link, in binary64. *)
Definition C1_weight : float := 7850 * (10 * 0.1 * 0.1) * 9.81.

(** The round-trip statement as written: a weight within 1 of 770143.5 and
    both reactions equal to half of it. *)
Definition C1_claim (py : PyLib) : Prop :=
  exists m' w,
    calcSupportReactions py (calcLinkVals py C1_model) = Ok m' /\
    map Link.weight (TrussModel.links m') = [Some w] /\
    (PrimFloat.abs (w - 770143.5) <? 1) = true /\
    TrussModel.leftReaction m' = w / 2 /\ TrussModel.rightReaction m' = w / 2.

Lemma C1_run (py : PyLib) :
  hypot py 10 0 = 10 ->
  fsum py [C1_weight] = C1_weight ->
  calcSupportReactions py (calcLinkVals py C1_model) =
    Ok (TrussModel.set_reactions
          (model_of [node_at "left" 0 0; node_at "right" 10 0]
             [Link.set_derived (Link.full "L1" "left" "right" 0.1 0.1 "steel")
                10 (atan2 py (0 - 0) (10 - 0)) C1_weight])
          6468.7 6468.7).
Proof.
  intros Hh Hs.
  assert (E : calcLinkVals py C1_model =
            model_of [node_at "left" 0 0; node_at "right" 10 0]
              [Link.set_derived (Link.full "L1" "left" "right" 0.1 0.1 "steel")
                 10 (atan2 py (0 - 0) (10 - 0)) C1_weight]).
  { unfold calcLinkVals, calcLink. cbn -[hypot atan2].
    change (10 - 0) with 10. change (0 - 0) with 0. rewrite Hh. reflexivity. }
  rewrite E. unfold calcSupportReactions. cbn -[fsum C1_weight].
  rewrite Hs. vm_compute. reflexivity.
Qed.

Lemma C1_claim_fails (py : PyLib) :
  hypot py 10 0 = 10 -> fsum py [C1_weight] = C1_weight -> ~ C1_claim py.
Proof.
  intros Hh Hs [m' [w [Hrun [Hw [Happrox _]]]]].
  rewrite (C1_run py Hh Hs) in Hrun. injection Hrun as <-.
  cbn in Hw. injection Hw as <-.
  vm_compute in Happrox. discriminate.
Qed.

(** C1 (as amended): on the round-trip model, [calcLinkVals] then
    [calcSupportReactions] raise nothing and leave the link with length 10
    and weight [7850 * (10 * 0.1 * 0.1) * 9.81], which lies between 7700.8
    and 7700.9: the weight is about 7700.85, not 770143.5.  (Nothing is
    stated here about the two reactions.) *)
Theorem calcLinkVals_round_trip_weight (py : PyLib) :
  hypot py 10 0 = 10 ->
  fsum py [C1_weight] = C1_weight ->
  exists m',
    calcSupportReactions py (calcLinkVals py C1_model) = Ok m' /\
    map Link.length (TrussModel.links m') = [Some 10] /\
    map Link.weight (TrussModel.links m') = [Some C1_weight] /\
    (7700.8 <? C1_weight) = true /\ (C1_weight <? 7700.9) = true.
Proof.
  intros Hh Hs. eexists. split; [exact (C1_run py Hh Hs)|].
  split; [reflexivity|]. split; [reflexivity|].
  split; vm_compute; reflexivity.
Qed.

Lemma calcLinkVals_round_trip_weight_witness :
  hypot demo_py 10 0 = 10 /\ fsum demo_py [C1_weight] = C1_weight /\
  exists m',
    calcSupportReactions demo_py (calcLinkVals demo_py C1_model) = Ok m' /\
    map Link.length (TrussModel.links m') = [Some 10] /\
    map Link.weight (TrussModel.links m') = [Some C1_weight] /\
    (7700.8 <? C1_weight) = true /\ (C1_weight <? 7700.9) = true.
Proof.
  assert (Hh : hypot demo_py 10 0 = 10) by (vm_compute; reflexivity).
  assert (Hs : fsum demo_py [C1_weight] = C1_weight) by (vm_compute; reflexivity).
  split; [exact Hh|]. split; [exact Hs|].
  exact (calcLinkVals_round_trip_weight demo_py Hh Hs).
Defined.

(** C1 as written fails: for any [math.hypot] with [hypot(10, 0) = 10] and
    any [sum] with [sum([w]) = w], the weight is not about 770143.5 (and
    the reactions are the constant 6468.7, not half the weight). *)
Lemma calcLinkVals_round_trip_counterexample :
  ~ (forall py : PyLib,
       hypot py 10 0 = 10 -> fsum py [C1_weight] = C1_weight -> C1_claim py).
Proof.
  intros H.
  assert (Hh : hypot demo_py 10 0 = 10) by (vm_compute; reflexivity).
  assert (Hs : fsum demo_py [C1_weight] = C1_weight) by (vm_compute; reflexivity).
  exact (C1_claim_fails demo_py Hh Hs (H demo_py Hh Hs)).
Qed.

(** ** Unresolved link endpoints *)

(** A steel link between the supports and a bare link to a missing node. *)
Definition C2_model : TrussModel.t :=
  model_of [node_at "left" 0 0; node_at "right" 10 0]
    [Link.full "L1" "left" "right" 0.1 0.1 "steel"; Link.bare "L2" "left" "X"].

(** C2 (code defect): [calcLinkVals] skips the link "L2", whose endpoint "X"
    does not resolve, and leaves it unchanged, but [calcSupportReactions]
    then raises TypeError: [sum] meets the [None] weight of "L2" (its
    [sumWx] loop would also read [None.position] and raise AttributeError). *)
Theorem calcSupportReactions_unresolved_link_fails (py : PyLib) :
  nth_error (TrussModel.links (calcLinkVals py C2_model)) 1
    = Some (Link.bare "L2" "left" "X") /\
  calcSupportReactions py (calcLinkVals py C2_model) = Error TypeError.
Proof. split; reflexivity. Qed.

(** ** Link tooltips *)

Definition ends_with (s suf : string) : Prop := exists pre, s = (pre ++ suf)%string.

Lemma ends_with_refl (suf : string) : ends_with suf suf.
Proof. exists EmptyString. reflexivity. Qed.

Lemma append_assoc (a b c : string) : (a ++ (b ++ c))%string = ((a ++ b) ++ c)%string.
Proof. induction a as [|ch a IH]; [reflexivity|]. cbn. rewrite IH. reflexivity. Qed.

Lemma ends_with_app (a s suf : string) : ends_with s suf -> ends_with (a ++ s) suf.
Proof. intros [pre ->]. exists (a ++ pre)%string. apply append_assoc. Qed.

Lemma ends_with_cons (c : ascii) (s suf : string) :
  ends_with s suf -> ends_with (String c s) suf.
Proof. intros [pre ->]. exists (String c pre). reflexivity. Qed.

Definition weight_line : string := "Displayed Weight: 1848.2 N".

(** Every tooltip [drawLink] builds ends with the constant weight line,
    whatever the link's weight. *)
Lemma drawLink_weight_line (py : PyLib) (truss : TrussModel.t) (cx cy : float)
    (l : Link.t) (it : SceneLink) :
  drawLink py truss cx cy l = Ok (Some it) -> ends_with (tooltip it) weight_line.
Proof.
  unfold drawLink.
  destruct (TrussModel.getNode truss (Link.node1_Name l)) as [n1|];
  destruct (TrussModel.getNode truss (Link.node2_Name l)) as [n2|];
    try discriminate.
  destruct (format_opt py 3 (Link.length l)) as [len_str|e]; cbn [bind];
    [|discriminate].
  intros H. injection H as <-. cbn [tooltip].
  repeat first [ exact (ends_with_refl weight_line)
               | apply ends_with_app | apply ends_with_cons ].
Qed.

Lemma drawLinks_weight_line (py : PyLib) (truss : TrussModel.t) (its : list SceneLink) :
  drawLinks py truss = Ok its -> Forall (fun it => ends_with (tooltip it) weight_line) its.
Proof.
  unfold drawLinks. generalize (TrussModel.links truss) as ls. revert its.
  set (cx := Rectangle.centerX (TrussModel.rct truss)).
  set (cy := Rectangle.centerY (TrussModel.rct truss)).
  intros its ls. revert its. induction ls as [|l ls IH]; intros its H.
  - cbn in H. injection H as <-. constructor.
  - cbn [drawLinks_aux] in H.
    destruct (drawLink py truss cx cy l) as [o|e] eqn:Ed; cbn [bind] in H;
      [|discriminate].
    destruct (drawLinks_aux py truss cx cy ls) as [rest|e] eqn:Er; cbn [bind] in H;
      [|discriminate].
    specialize (IH rest eq_refl).
    destruct o as [it|]; injection H as <-; [|exact IH].
    constructor; [exact (drawLink_weight_line py truss cx cy l it Ed)|exact IH].
Qed.

(** A link from the "left" support to an ordinary node, weight 100. *)
Definition C3_link : Link.t :=
  Link.mk "L1" "left" "N1" (Some 10) (Some 0) (Some "steel"%string)
    (Some 0.1) (Some 0.1) (Some 100).

Definition C3_model : TrussModel.t :=
  model_of [node_at "left" 0 0; node_at "N1" 10 0] [C3_link].

(** C3 (code defect): for a link with exactly one support endpoint and
    weight 100, [drawLinks] computes the half weight 50 ([partial_weight])
    but the tooltip of the link it draws ends with the fixed line
    "Displayed Weight: 1848.2 N"; every drawn tooltip ends so. *)
Theorem drawLinks_tooltip_weight_constant (py : PyLib) :
  partial_weight C3_link = Some 50 /\
  exists it, drawLinks py C3_model = Ok [it] /\ ends_with (tooltip it) weight_line.
Proof.
  split; [vm_compute; reflexivity|].
  destruct (drawLinks py C3_model) as [its|e] eqn:E.
  - pose proof (drawLinks_weight_line py C3_model its E) as HF.
    unfold drawLinks in E. cbn in E. injection E as <-.
    eexists. split; [reflexivity|]. inversion HF. assumption.
  - unfold drawLinks in E. cbn in E. discriminate.
Qed.

(** ** The record parser *)

Lemma split_comma_not_nil (s : string) : split_comma s <> [].
Proof.
  destruct s as [|c s']; cbn; [discriminate|].
  destruct (Ascii.eqb c ","); [discriminate|].
  destruct (split_comma s'); discriminate.
Qed.

Lemma split_comma_head (c : ascii) (s : string) :
  Ascii.eqb c "," = false ->
  exists r, hd EmptyString (split_comma (String c s)) = String c r.
Proof.
  intros Hc. cbn. rewrite Hc.
  destruct (split_comma s) as [|r rs]; eexists; reflexivity.
Qed.

Lemma drop_spaces_snoc (l : list ascii) (c : ascii) :
  is_space c = false -> drop_spaces (l ++ [c]) = drop_spaces l ++ [c].
Proof.
  intros Hc. induction l as [|a l IH]; cbn.
  - rewrite Hc. reflexivity.
  - destruct (is_space a); [exact IH|reflexivity].
Qed.

(** [strip] keeps a leading character that is not whitespace. *)
Lemma strip_head (c : ascii) (s : string) :
  is_space c = false -> exists r, strip (String c s) = String c r.
Proof.
  intros Hc. unfold strip. cbn [list_ascii_of_string drop_spaces]. rewrite Hc.
  cbn [rev]. rewrite drop_spaces_snoc by exact Hc. rewrite rev_app_distr.
  cbn. eexists. reflexivity.
Qed.

Lemma hd_cells_of (line : string) :
  hd EmptyString (cells_of line) = strip (hd EmptyString (split_comma line)).
Proof. unfold cells_of. destruct (split_comma line); reflexivity. Qed.

Lemma cells_of_length (line : string) :
  List.length (cells_of line) = List.length (split_comma line).
Proof. apply length_map. Qed.

Lemma startswith_hash (s : string) : startswith (String "#" s) "#" = true.
Proof. destruct s; reflexivity. Qed.

(** A line whose first field is not blank, does not start with "#" and
    that has at least two fields is handled by [processCells]. *)
Lemma processLine_cells (py : PyLib) (m : TrussModel.t) (line0 : string) :
  (2 <= List.length (cells_of (strip line0)))%nat ->
  startswith (lower (hd EmptyString (cells_of (strip line0)))) "#" = false ->
  processLine py m line0 = processCells py m (cells_of (strip line0)).
Proof.
  intros Hlen Hhash. unfold processLine.
  destruct (strip line0) as [|c r] eqn:Hl.
  - cbn in Hlen. lia.
  - destruct (Ascii.eqb c "#") eqn:Hc.
    + apply Ascii.eqb_eq in Hc. subst c. exfalso.
      destruct (split_comma_head "#" r eq_refl) as [r1 Hr1].
      rewrite hd_cells_of, Hr1 in Hhash.
      destruct (strip_head "#" r1 eq_refl) as [r2 Hr2].
      rewrite Hr2 in Hhash. cbn [lower] in Hhash.
      change (lower_ascii "#") with "#"%char in Hhash.
      rewrite startswith_hash in Hhash. discriminate.
    + assert (Hs : startswith (String c r) "#" = false).
      { unfold startswith. cbn [String.prefix].
        destruct (ascii_dec "#" c) as [<-|]; [discriminate|reflexivity]. }
      rewrite Hs. cbn [str_truthy negb orb].
      destruct (Nat.ltb (List.length (cells_of (String c r))) 2) eqn:E;
        [apply Nat.ltb_lt in E; lia|reflexivity].
Qed.

(** The record kinds are told apart by their first letter. *)
Lemma link_key (key : string) :
  startswith key "link" = true ->
  startswith key "#" = false /\ startswith key "material" = false /\
  startswith key "static" = false /\ startswith key "node" = false.
Proof.
  unfold startswith. destruct key as [|a k]; cbn [String.prefix]; [discriminate|].
  destruct (ascii_dec "l" a) as [<-|]; [|discriminate]. intros _.
  repeat split; vm_compute; reflexivity.
Qed.

Lemma node_key (key : string) :
  startswith key "node" = true ->
  startswith key "#" = false /\ startswith key "material" = false /\
  startswith key "static" = false.
Proof.
  unfold startswith. destruct key as [|a k]; cbn [String.prefix]; [discriminate|].
  destruct (ascii_dec "n" a) as [<-|]; [|discriminate]. intros _.
  repeat split; vm_compute; reflexivity.
Qed.

Lemma material_key (key : string) :
  startswith key "material" = true -> startswith key "#" = false.
Proof.
  unfold startswith. destruct key as [|a k]; cbn [String.prefix]; [discriminate|].
  destruct (ascii_dec "m" a) as [<-|]; [|discriminate]. intros _.
  vm_compute; reflexivity.
Qed.

Lemma static_key (key : string) :
  startswith key "static" = true ->
  startswith key "#" = false /\ startswith key "material" = false.
Proof.
  unfold startswith. destruct key as [|a k]; cbn [String.prefix]; [discriminate|].
  destruct (ascii_dec "s" a) as [<-|]; [|discriminate]. intros _.
  split; vm_compute; reflexivity.
Qed.

(** C9: a line whose first field selects the link kind and that has at least
    4 but fewer than 7 fields raises nothing and appends a bare link carrying
    the three names, with width, thickness and material unset. *)
Theorem processLine_short_link (py : PyLib) (m : TrussModel.t) (line0 : string) :
  startswith (lower (hd EmptyString (cells_of (strip line0)))) "link" = true ->
  (4 <= List.length (cells_of (strip line0)) < 7)%nat ->
  processLine py m line0 =
    (TrussModel.set_links m
       (TrussModel.links m ++
        [Link.bare (nth 1 (cells_of (strip line0)) EmptyString)
                   (nth 2 (cells_of (strip line0)) EmptyString)
                   (nth 3 (cells_of (strip line0)) EmptyString)]),
     None).
Proof.
  intros Hkey Hlen.
  destruct (link_key _ Hkey) as [Hh [Hm [Hs Hn]]].
  rewrite (processLine_cells py m line0) by (lia || exact Hh).
  destruct (cells_of (strip line0)) as [|c0 [|c1 [|c2 [|c3 rest]]]];
    cbn [List.length] in Hlen; try lia.
  unfold processCells. cbn [hd] in *. rewrite Hm, Hs, Hn, Hkey.
  unfold cell. cbn [nth_error nth bind].
  destruct (Nat.leb 7 (List.length (c0 :: c1 :: c2 :: c3 :: rest))) eqn:E;
    [apply Nat.leb_le in E; cbn [List.length] in E; lia|reflexivity].
Qed.

Lemma processLine_short_link_witness :
  processLine demo_py TrussModel.empty "link, L2, left, right" =
    (TrussModel.set_links TrussModel.empty [Link.bare "L2" "left" "right"], None).
Proof.
  apply (processLine_short_link demo_py TrussModel.empty "link, L2, left, right");
    vm_compute; [reflexivity|lia].
Defined.

(** ** Failing imports *)

(** The fields of a line and its lower-cased first field. *)
Definition fields (line0 : string) : list string := cells_of (strip line0).
Definition key_of (line0 : string) : string := lower (hd EmptyString (fields line0)).













(** ** Records with too few fields *)

(** The exception raised by a record that has too few fields, when its
    numeric fields are at the positions [numeric]: ValueError if one of
    those present does not parse (they are read before the first missing
    one), IndexError otherwise. *)
Definition short_error (py : PyLib) (numeric : list nat) (cells : list string) : PyError :=
  if existsb (fun i => Nat.ltb i (List.length cells) &&
                       match float_of_str py (nth i cells EmptyString) with
                                   | Some _ => false | None => true end)
             numeric
  then ValueError else IndexError.

(** C10 (as amended): a blank line, a comment line (starting with "#" once
    stripped) and a line with fewer than 2 fields are ignored, and so is a
    line whose first field names no record kind.  A link line with 2 or 3
    fields raises IndexError; a node line with 2 or 3 fields, and a material
    line with 2 or 3 fields, raise IndexError when each numeric field
    present parses, and ValueError when one does not; none of them is
    silently skipped. *)
Theorem processLine_short_records (py : PyLib) (m : TrussModel.t) (line0 : string) :
  (strip line0 = EmptyString \/ startswith (strip line0) "#" = true \/
   (List.length (fields line0) < 2)%nat ->
   processLine py m line0 = (m, None)) /\
  ((startswith (key_of line0) "material" || startswith (key_of line0) "static" ||
    startswith (key_of line0) "node" || startswith (key_of line0) "link") = false ->
   processLine py m line0 = (m, None)) /\
  (startswith (key_of line0) "link" = true -> (2 <= List.length (fields line0) < 4)%nat ->
   processLine py m line0 = (m, Some IndexError)) /\
  (startswith (key_of line0) "node" = true -> (2 <= List.length (fields line0) < 4)%nat ->
   processLine py m line0 = (m, Some (short_error py [2; 3]%nat (fields line0)))) /\
  (startswith (key_of line0) "material" = true ->
   (2 <= List.length (fields line0) < 4)%nat ->
   snd (processLine py m line0) = Some (short_error py [1; 2; 3]%nat (fields line0))).
Proof.
  unfold key_of, fields. split; [|split; [|split; [|split]]].
  - intros H. unfold processLine. cbv zeta.
    destruct H as [H|[H|H]].
    + rewrite H. reflexivity.
    + rewrite H, orb_true_r. reflexivity.
    + destruct (negb (str_truthy (strip line0)) || startswith (strip line0) "#");
        [reflexivity|].
      apply Nat.ltb_lt in H. rewrite H. reflexivity.
  - intros Hk. unfold processLine.
    destruct (negb (str_truthy (strip line0)) || startswith (strip line0) "#");
      [reflexivity|].
    destruct (Nat.ltb (List.length (cells_of (strip line0))) 2); [reflexivity|].
    unfold processCells.
    destruct (startswith (lower (hd EmptyString (cells_of (strip line0)))) "material");
      [discriminate|].
    destruct (startswith (lower (hd EmptyString (cells_of (strip line0)))) "static");
      [discriminate|].
    destruct (startswith (lower (hd EmptyString (cells_of (strip line0)))) "node");
      [discriminate|].
    destruct (startswith (lower (hd EmptyString (cells_of (strip line0)))) "link");
      [discriminate|reflexivity].
  - intros Hk Hl. destruct (link_key _ Hk) as [Hh [Hm [Hs Hn]]].
    rewrite (processLine_cells py m line0) by (lia || exact Hh).
    unfold processCells. rewrite Hm, Hs, Hn, Hk.
    destruct (cells_of (strip line0)) as [|c0 [|c1 [|c2 [|c3 rest]]]];
      cbn [List.length] in *; try lia; reflexivity.
  - intros Hk Hl. destruct (node_key _ Hk) as [Hh [Hm Hs]].
    rewrite (processLine_cells py m line0) by (lia || exact Hh).
    unfold processCells. rewrite Hm, Hs, Hk.
    destruct (cells_of (strip line0)) as [|c0 [|c1 [|c2 [|c3 rest]]]];
      cbn [List.length] in *; try lia.
    + reflexivity.
    + unfold short_error, float_cell, cell. cbn.
      destruct (float_of_str py c2); reflexivity.
  - intros Hk Hl. pose proof (material_key _ Hk) as Hh.
    rewrite (processLine_cells py m line0) by (lia || exact Hh).
    unfold processCells. rewrite Hk.
    destruct (cells_of (strip line0)) as [|c0 [|c1 [|c2 [|c3 rest]]]];
      cbn [List.length] in *; try lia.
    + unfold short_error, float_cell, cell. cbn.
      destruct (float_of_str py c1); reflexivity.
    + unfold short_error, float_cell, cell. cbn.
      destruct (float_of_str py c1); [|reflexivity].
      destruct (float_of_str py c2); reflexivity.
Qed.

Lemma processLine_short_records_witness :
  processLine demo_py TrussModel.empty "  # node, A, 1, 2" = (TrussModel.empty, None) /\
  processLine demo_py TrussModel.empty "node, A, foo" = (TrussModel.empty, Some ValueError) /\
  processLine demo_py TrussModel.empty "link, L3" = (TrussModel.empty, Some IndexError).
Proof.
  split; [|split].
  - destruct (processLine_short_records demo_py TrussModel.empty "  # node, A, 1, 2")
      as [Hskip _].
    apply Hskip. right; left. vm_compute. reflexivity.
  - destruct (processLine_short_records demo_py TrussModel.empty "node, A, foo")
      as [_ [_ [_ [Hnode _]]]].
    rewrite Hnode; vm_compute; [reflexivity|reflexivity|lia].
  - destruct (processLine_short_records demo_py TrussModel.empty "link, L3")
      as [_ [_ [Hlink _]]].
    apply Hlink; vm_compute; [reflexivity|lia].
Defined.

(** The statement as written: every node, material or link line with at
    least 2 but fewer than 4 fields raises IndexError. *)
Definition C10_claim (py : PyLib) : Prop :=
  forall m line0,
    (2 <= List.length (fields line0) < 4)%nat ->
    startswith (key_of line0) "node" = true \/
    startswith (key_of line0) "material" = true \/
    startswith (key_of line0) "link" = true ->
    snd (processLine py m line0) = Some IndexError.

Lemma processLine_bad_node (py : PyLib) (m : TrussModel.t) :
  float_of_str py "foo" = None ->
  processLine py m "node, A, foo" = (m, Some ValueError).
Proof.
  intros Hfoo. destruct py as [h a d f fs fmt]; cbn in Hfoo.
  vm_compute. rewrite Hfoo. reflexivity.
Qed.

(** C10 as written fails: "node, A, foo" has 3 fields and raises the
    numeric ValueError, not IndexError. *)
Lemma processLine_short_records_counterexample :
  ~ (forall py : PyLib, float_of_str py "foo" = None -> C10_claim py).
Proof.
  intros H.
  assert (Hfoo : float_of_str demo_py "foo" = None) by (vm_compute; reflexivity).
  assert (Hlen : (2 <= List.length (fields "node, A, foo") < 4)%nat)
    by (vm_compute; lia).
  pose proof (H demo_py Hfoo TrussModel.empty "node, A, foo"%string Hlen
                (or_introl eq_refl)) as E.
  rewrite (processLine_bad_node demo_py TrussModel.empty Hfoo) in E.
  discriminate E.
Qed.

(** * Further properties of the code *)

(** ** Node lookup and [calcLinkVals] *)

(** X1: [getNode] over nodes [ns1 ++ ns2] finds a node of [ns1] first:
    nodes appended later never shadow an earlier node of the same name. *)
Theorem find_node_app (ns1 ns2 : list Node.t) (nm : string) :
  TrussModel.find_node (ns1 ++ ns2) nm =
    match TrussModel.find_node ns1 nm with
    | Some n => Some n
    | None => TrussModel.find_node ns2 nm
    end.
Proof.
  induction ns1 as [|a ns1 IH]; [reflexivity|].
  cbn. destruct (String.eqb (Node.name a) nm); [reflexivity|exact IH].
Qed.

(** The inputs of a link, which [calcLinkVals] only reads. *)
Definition link_inputs (l : Link.t)
  : string * string * string * option string * option float * option float :=
  (Link.name l, Link.node1_Name l, Link.node2_Name l, Link.material l,
   Link.width l, Link.thickness l).

Lemma calcLink_inputs (py : PyLib) (ns : list Node.t) (l : Link.t) :
  link_inputs (calcLink py ns l) = link_inputs l.
Proof.
  unfold calcLink.
  destruct (TrussModel.find_node ns (Link.node1_Name l));
  destruct (TrussModel.find_node ns (Link.node2_Name l)); reflexivity.
Qed.

(** A link whose two endpoints resolve gets a length, an angle and a weight. *)
Lemma calcLink_resolved (py : PyLib) (ns : list Node.t) (l : Link.t) :
  TrussModel.find_node ns (Link.node1_Name l) <> None ->
  TrussModel.find_node ns (Link.node2_Name l) <> None ->
  exists len ang wt, calcLink py ns l = Link.set_derived l len ang wt.
Proof.
  intros H1 H2. unfold calcLink.
  destruct (TrussModel.find_node ns (Link.node1_Name l)); [|congruence].
  destruct (TrussModel.find_node ns (Link.node2_Name l)); [|congruence].
  eauto.
Qed.

(** A finite float is a zero or a finite binary64 number. *)
Lemma finite_cases (x : float) :
  is_finite x = true ->
  (exists s, Prim2SF x = S754_zero s) \/ (exists s mx ex, Prim2SF x = S754_finite s mx ex).
Proof.
  unfold is_finite, is_nan, is_infinity. rewrite !eqb_spec, abs_spec.
  destruct (Prim2SF x) as [s|[|]| |s mx ex]; cbn; intros H; eauto; discriminate.
Qed.

Lemma density_cases (mat : option string) : density_of mat = 7850 \/ density_of mat = 2700.
Proof.
  unfold density_of. destruct mat as [s|]; [|right; reflexivity].
  destruct (str_truthy s && String.eqb (lower s) "steel"); auto.
Qed.

(** X3: a link whose endpoints resolve but which has no width (unset, 0 or
    -0) gets weight 0 (or -0) from [calcLinkVals], as long as its length
    [hypot(dx, dy)] and its thickness term are finite. *)
Theorem calcLink_no_width_weightless (py : PyLib) (ns : list Node.t) (l : Link.t)
    (n1 n2 : Node.t) :
  TrussModel.find_node ns (Link.node1_Name l) = Some n1 ->
  TrussModel.find_node ns (Link.node2_Name l) = Some n2 ->
  (Link.width l = None \/ exists w, Link.width l = Some w /\ (w =? 0) = true) ->
  is_finite (hypot py (Position.x (Node.position n2) - Position.x (Node.position n1))
                      (Position.y (Node.position n2) - Position.y (Node.position n1))) = true ->
  is_finite (or_zero (Link.thickness l)) = true ->
  exists wt, Link.weight (calcLink py ns l) = Some wt /\ (wt =? 0) = true.
Proof.
  intros E1 E2 Hw Hlen Ht. unfold calcLink. rewrite E1, E2.
  cbn [Link.weight Link.set_derived]. eexists. split; [reflexivity|].
  assert (Hz : or_zero (Link.width l) = 0).
  { destruct Hw as [-> | [w [-> Hw0]]]; [reflexivity|]. cbn. rewrite Hw0. reflexivity. }
  rewrite Hz. rewrite eqb_spec, !mul_spec.
  destruct (finite_cases _ Hlen) as [[s E]|[s [mx [ex E]]]]; rewrite E;
  destruct (finite_cases _ Ht) as [[s' E']|[s' [mx' [ex' E']]]]; rewrite E';
  destruct (density_cases (Link.material l)) as [Ed|Ed]; rewrite Ed;
  vm_compute; reflexivity.
Qed.

(** Two supports 10 apart and a link without width or thickness. *)
Definition X3_model : TrussModel.t :=
  model_of [node_at "left" 0 0; node_at "right" 10 0] [Link.bare "L1" "left" "right"].

Lemma calcLink_no_width_weightless_witness :
  exists wt, Link.weight (calcLink demo_py (TrussModel.nodes X3_model)
                            (Link.bare "L1" "left" "right")) = Some wt /\ (wt =? 0) = true.
Proof.
  apply (calcLink_no_width_weightless demo_py (TrussModel.nodes X3_model)
           (Link.bare "L1" "left" "right") (node_at "left" 0 0) (node_at "right" 10 0));
    [reflexivity|reflexivity|left; reflexivity|vm_compute; reflexivity|vm_compute; reflexivity].
Defined.

(** ** [calcSupportReactions] *)

Lemma not_le_zero_ne (w : float) : (w <=? 0) = false -> (w =? 0) = false.
Proof.
  rewrite leb_spec, eqb_spec. cbn [Prim2SF].
  destruct (Prim2SF w) as [[|]|[|]| |[|] mw ew]; cbn; try discriminate; reflexivity.
Qed.

Lemma weights_error (ls : list Link.t) (e : PyError) : weights ls = Error e -> e = TypeError.
Proof.
  induction ls as [|l ls IH]; cbn; [discriminate|].
  destruct (Link.weight l); [|congruence].
  destruct (weights ls); cbn [bind]; [discriminate|auto].
Qed.

Lemma sum_moments_error (ns : list Node.t) (s : float) (ls : list Link.t) (e : PyError) :
  sum_moments ns s ls = Error e -> e = TypeError \/ e = AttributeError.
Proof.
  revert s. induction ls as [|l ls IH]; intros s; cbn; [discriminate|].
  destruct (TrussModel.find_node ns (Link.node1_Name l)); [|intros H; injection H; auto].
  destruct (TrussModel.find_node ns (Link.node2_Name l)); [|intros H; injection H; auto].
  destruct (Link.weight l); [apply IH|intros H; injection H; auto].
Qed.

(** X5: [calcSupportReactions] never raises ZeroDivisionError (the division
    by [W_total] is only reached when [W_total > 0]); the only exceptions it
    raises are TypeError and AttributeError. *)
Theorem calcSupportReactions_errors (py : PyLib) (m : TrussModel.t) (e : PyError) :
  calcSupportReactions py m = Error e -> e = TypeError \/ e = AttributeError.
Proof.
  unfold calcSupportReactions.
  destruct (TrussModel.getNode m "left"); [|discriminate].
  destruct (TrussModel.getNode m "right"); [|discriminate].
  destruct (weights (TrussModel.links m)) as [ws|e'] eqn:Ew; cbn [bind];
    [|intros H; injection H as <-; left; exact (weights_error _ _ Ew)].
  destruct (fsum py ws <=? 0) eqn:Hle; [discriminate|].
  destruct (PrimFloat.abs _ <? 1e-9); [discriminate|].
  destruct (sum_moments _ _ _) as [s|e'] eqn:Es; cbn [bind];
    [|intros H; injection H as <-; exact (sum_moments_error _ _ _ _ Es)].
  rewrite (not_le_zero_ne _ Hle). discriminate.
Qed.

Lemma calcSupportReactions_errors_witness :
  calcSupportReactions demo_py (calcLinkVals demo_py C2_model) = Error TypeError /\
  (TypeError = TypeError \/ TypeError = AttributeError).
Proof.
  assert (H : calcSupportReactions demo_py (calcLinkVals demo_py C2_model) = Error TypeError)
    by (vm_compute; reflexivity).
  split; [exact H|exact (calcSupportReactions_errors demo_py _ TypeError H)].
Defined.

Lemma weights_ok (ls : list Link.t) :
  (forall l, In l ls -> Link.weight l <> None) -> exists ws, weights ls = Ok ws.
Proof.
  induction ls as [|a ls IH]; intros H; [exists []; reflexivity|]. cbn.
  destruct (Link.weight a) eqn:Ew; [|exfalso; apply (H a); [left; reflexivity|exact Ew]].
  destruct IH as [ws ->]; [intros l' Hl'; apply H; right; exact Hl'|]. cbn. eauto.
Qed.

Lemma sum_moments_ok (ns : list Node.t) (s : float) (ls : list Link.t) :
  (forall l, In l ls ->
     TrussModel.find_node ns (Link.node1_Name l) <> None /\
     TrussModel.find_node ns (Link.node2_Name l) <> None /\ Link.weight l <> None) ->
  exists r, sum_moments ns s ls = Ok r.
Proof.
  revert s. induction ls as [|a ls IH]; intros s H; [eexists; reflexivity|]. cbn.
  destruct (H a (or_introl eq_refl)) as [H1 [H2 H3]].
  destruct (TrussModel.find_node ns (Link.node1_Name a)); [|congruence].
  destruct (TrussModel.find_node ns (Link.node2_Name a)); [|congruence].
  destruct (Link.weight a); [|congruence].
  apply IH. intros l' Hl'. apply H. right. exact Hl'.
Qed.

(** X6: when every link's two endpoints name existing nodes,
    [calcLinkVals] followed by [calcSupportReactions] raises nothing. *)
Theorem calcSupportReactions_after_calcLinkVals (py : PyLib) (m : TrussModel.t) :
  (forall l, In l (TrussModel.links m) ->
     TrussModel.find_node (TrussModel.nodes m) (Link.node1_Name l) <> None /\
     TrussModel.find_node (TrussModel.nodes m) (Link.node2_Name l) <> None) ->
  exists m', calcSupportReactions py (calcLinkVals py m) = Ok m'.
Proof.
  intros H.
  assert (Hall : forall l', In l' (TrussModel.links (calcLinkVals py m)) ->
            TrussModel.find_node (TrussModel.nodes m) (Link.node1_Name l') <> None /\
            TrussModel.find_node (TrussModel.nodes m) (Link.node2_Name l') <> None /\
            Link.weight l' <> None).
  { intros l' Hl'. cbn in Hl'. apply in_map_iff in Hl' as [l [<- Hl]].
    destruct (H l Hl) as [H1 H2].
    destruct (calcLink_resolved py _ l H1 H2) as [len [ang [wt ->]]].
    cbn. repeat split; [exact H1|exact H2|discriminate]. }
  destruct (weights_ok (TrussModel.links (calcLinkVals py m))) as [ws Ew];
    [intros l' Hl'; apply Hall; exact Hl'|].
  destruct (sum_moments_ok (TrussModel.nodes m) 0 (TrussModel.links (calcLinkVals py m)))
    as [s Es]; [exact Hall|].
  unfold calcSupportReactions.
  destruct (TrussModel.getNode (calcLinkVals py m) "left"); [|eauto].
  destruct (TrussModel.getNode (calcLinkVals py m) "right"); [|eauto].
  rewrite Ew. cbn [bind].
  destruct (fsum py ws <=? 0) eqn:Hle; [eauto|].
  destruct (PrimFloat.abs _ <? 1e-9); [eauto|].
  cbn [calcLinkVals TrussModel.set_links TrussModel.nodes] in Es |- *.
  rewrite Es. cbn [bind]. rewrite (not_le_zero_ne _ Hle). eauto.
Qed.

Lemma calcSupportReactions_after_calcLinkVals_witness :
  exists m', calcSupportReactions demo_py (calcLinkVals demo_py C1_model) = Ok m'.
Proof.
  apply calcSupportReactions_after_calcLinkVals.
  intros l [<-|[]]. split; discriminate.
Defined.

(** ** The record parser *)

(** X7: parsing a concatenation of lines parses the first part, then, if
    it raised nothing, the second part from the model it built; an
    exception in the first part stops the parse there. *)
Theorem parseLines_app (py : PyLib) (m : TrussModel.t) (d1 d2 : list string) :
  parseLines py m (d1 ++ d2) =
    match parseLines py m d1 with
    | (m1, None) => parseLines py m1 d2
    | (m1, Some e) => (m1, Some e)
    end.
Proof.
  revert m. induction d1 as [|line d1 IH]; intros m; [reflexivity|].
  cbn [app parseLines]. destruct (processLine py m line) as [m' [e|]]; [reflexivity|].
  apply IH.
Qed.

(** X9: a node line with at least four fields whose x and y parse appends
    one node, named by the stripped second field, at (x, y, 0), and raises
    nothing. *)
Theorem processLine_node (py : PyLib) (m : TrussModel.t) (line0 : string) (x y : float) :
  startswith (key_of line0) "node" = true ->
  (4 <= List.length (fields line0))%nat ->
  float_of_str py (nth 2 (fields line0) EmptyString) = Some x ->
  float_of_str py (nth 3 (fields line0) EmptyString) = Some y ->
  processLine py m line0 =
    (TrussModel.set_nodes m
       (TrussModel.nodes m ++
        [Node.mk (strip (nth 1 (fields line0) EmptyString)) (Position.of_xy x y)]),
     None).
Proof.
  unfold key_of, fields. intros Hk Hl Hx Hy.
  destruct (node_key _ Hk) as [Hh [Hm Hs]].
  rewrite (processLine_cells py m line0) by (lia || exact Hh).
  unfold processCells. rewrite Hm, Hs, Hk.
  destruct (cells_of (strip line0)) as [|c0 [|c1 [|c2 [|c3 rest]]]];
    cbn [List.length] in Hl; try lia.
  cbn [nth] in Hx, Hy. unfold float_cell, cell. cbn [nth_error bind].
  rewrite Hx, Hy. reflexivity.
Qed.

Lemma processLine_node_witness :
  processLine demo_py TrussModel.empty "Node, A , 1, 2.5" =
    (TrussModel.set_nodes TrussModel.empty [Node.mk "A" (Position.of_xy 1 2.5)], None).
Proof.
  apply (processLine_node demo_py TrussModel.empty "Node, A , 1, 2.5" 1 2.5);
    vm_compute; [reflexivity|lia|reflexivity|reflexivity].
Defined.

(** X10: a material line assigns uts, ys and E one by one: when the first
    number parses and the second does not, the model keeps the new uts and
    ValueError is raised; when all three parse, the three are set and the
    static factor is kept. *)
Theorem processLine_material (py : PyLib) (m : TrussModel.t) (line0 : string) (u : float) :
  startswith (key_of line0) "material" = true ->
  (3 <= List.length (fields line0))%nat ->
  float_of_str py (nth 1 (fields line0) EmptyString) = Some u ->
  (float_of_str py (nth 2 (fields line0) EmptyString) = None ->
   processLine py m line0 = (set_uts m u, Some ValueError)) /\
  (forall ys E,
     (4 <= List.length (fields line0))%nat ->
     float_of_str py (nth 2 (fields line0) EmptyString) = Some ys ->
     float_of_str py (nth 3 (fields line0) EmptyString) = Some E ->
     processLine py m line0 = (set_E (set_ys (set_uts m u) ys) E, None)).
Proof.
  unfold key_of, fields. intros Hk Hl Hu.
  pose proof (material_key _ Hk) as Hh.
  rewrite (processLine_cells py m line0) by (lia || exact Hh).
  unfold processCells. rewrite Hk.
  destruct (cells_of (strip line0)) as [|c0 [|c1 [|c2 rest]]];
    cbn [List.length] in Hl; try lia.
  cbn [nth] in Hu. unfold float_cell, cell. cbn [nth_error bind]. rewrite Hu.
  split.
  - intros Hy. cbn [nth] in Hy. rewrite Hy. reflexivity.
  - intros ys E Hl4 Hy He. cbn [nth] in Hy. rewrite Hy.
    destruct rest as [|c3 rest]; cbn [List.length] in Hl4; [lia|].
    cbn [nth] in He. cbn [bind]. rewrite He. reflexivity.
Qed.

Lemma processLine_material_witness :
  processLine demo_py TrussModel.empty "material, 400, x, 200" =
    (set_uts TrussModel.empty 400, Some ValueError).
Proof.
  assert (Hk : startswith (key_of "material, 400, x, 200") "material" = true)
    by (vm_compute; reflexivity).
  assert (Hl : (3 <= List.length (fields "material, 400, x, 200"))%nat)
    by (vm_compute; lia).
  assert (Hu : float_of_str demo_py (nth 1 (fields "material, 400, x, 200") EmptyString)
               = Some 400) by (vm_compute; reflexivity).
  apply (processLine_material demo_py TrussModel.empty _ 400 Hk Hl Hu).
  vm_compute. reflexivity.
Defined.

(** X11: a static line with at least two fields sets the static factor to
    its second field, leaving everything else, or raises ValueError with the
    model unchanged when that field is not a number. *)
Theorem processLine_static (py : PyLib) (m : TrussModel.t) (line0 : string) :
  startswith (key_of line0) "static" = true ->
  (2 <= List.length (fields line0))%nat ->
  processLine py m line0 =
    match float_of_str py (nth 1 (fields line0) EmptyString) with
    | Some f => (set_staticFactor m f, None)
    | None => (m, Some ValueError)
    end.
Proof.
  unfold key_of, fields. intros Hk Hl.
  destruct (static_key _ Hk) as [Hh Hm].
  rewrite (processLine_cells py m line0 Hl Hh).
  unfold processCells. rewrite Hm, Hk.
  destruct (cells_of (strip line0)) as [|c0 [|c1 rest]];
    cbn [List.length] in Hl; try lia.
  unfold float_cell, cell. cbn [nth_error nth bind].
  destruct (float_of_str py c1); reflexivity.
Qed.

Lemma processLine_static_witness :
  processLine demo_py TrussModel.empty "static, 2" =
    (set_staticFactor TrussModel.empty 2, None).
Proof.
  rewrite (processLine_static demo_py TrussModel.empty "static, 2");
    vm_compute; [reflexivity|reflexivity|lia].
Defined.

(** X12: a link line with at least seven fields whose width and thickness
    parse appends one link with those names, width and thickness and with
    the seventh field as its material; later fields are ignored. *)
Theorem processLine_full_link (py : PyLib) (m : TrussModel.t) (line0 : string)
    (w th : float) :
  startswith (key_of line0) "link" = true ->
  (7 <= List.length (fields line0))%nat ->
  float_of_str py (nth 4 (fields line0) EmptyString) = Some w ->
  float_of_str py (nth 5 (fields line0) EmptyString) = Some th ->
  processLine py m line0 =
    (TrussModel.set_links m
       (TrussModel.links m ++
        [Link.full (nth 1 (fields line0) EmptyString) (nth 2 (fields line0) EmptyString)
                   (nth 3 (fields line0) EmptyString) w th
                   (nth 6 (fields line0) EmptyString)]),
     None).
Proof.
  unfold key_of, fields. intros Hk Hl Hw Ht.
  destruct (link_key _ Hk) as [Hh [Hm [Hs Hn]]].
  rewrite (processLine_cells py m line0) by (lia || exact Hh).
  unfold processCells. rewrite Hm, Hs, Hn, Hk.
  destruct (cells_of (strip line0)) as [|c0 [|c1 [|c2 [|c3 [|c4 [|c5 [|c6 rest]]]]]]];
    cbn [List.length] in Hl; try lia.
  cbn [nth] in Hw, Ht. unfold float_cell, cell. cbn [nth_error bind nth].
  destruct (Nat.leb 7 _) eqn:E; [|apply Nat.leb_gt in E; cbn [List.length] in E; lia].
  cbn [bind]. rewrite Hw. cbn [bind]. rewrite Ht. reflexivity.
Qed.

Lemma processLine_full_link_witness :
  processLine demo_py TrussModel.empty "link, L1, left, right, 0.1, 0.2, steel, x" =
    (TrussModel.set_links TrussModel.empty [Link.full "L1" "left" "right" 0.1 0.2 "steel"],
     None).
Proof.
  apply (processLine_full_link demo_py TrussModel.empty
           "link, L1, left, right, 0.1, 0.2, steel, x" 0.1 0.2);
    vm_compute; [reflexivity|lia|reflexivity|reflexivity].
Defined.

(** ** The bounding box *)

Definition node_xs (ns : list Node.t) : list float :=
  map (fun n => Position.x (Node.position n)) ns.
Definition node_ys (ns : list Node.t) : list float :=
  map (fun n => Position.y (Node.position n)) ns.

(** Each edge of the box stays a coordinate of some node while the loop
    runs. *)
Lemma fold_expand_in (xs ys : list float) (ns : list Node.t) (r : Rectangle.t) :
  (forall n, In n ns -> In (Position.x (Node.position n)) xs /\
                        In (Position.y (Node.position n)) ys) ->
  In (Rectangle.left r) xs -> In (Rectangle.right r) xs ->
  In (Rectangle.top r) ys -> In (Rectangle.bottom r) ys ->
  let r' := fold_left expand ns r in
  In (Rectangle.left r') xs /\ In (Rectangle.right r') xs /\
  In (Rectangle.top r') ys /\ In (Rectangle.bottom r') ys.
Proof.
  revert r. induction ns as [|n ns IH]; intros r Hns Hl Hr Ht Hb; [cbn; auto|].
  cbn [fold_left]. destruct (Hns n (or_introl eq_refl)) as [Hx Hy].
  apply IH; [intros n' Hn'; apply Hns; right; exact Hn'| | | |]; unfold expand; cbn;
    match goal with |- context [if ?c then _ else _] => destruct c end; assumption.
Qed.

(** X13: [getCenterPt] leaves a model without nodes unchanged; with nodes it
    changes only [rct], and each edge of the new box is a coordinate of one
    of the nodes: [left] and [right] an x, [top] and [bottom] a y. *)
Theorem getCenterPt_edges (m : TrussModel.t) :
  (TrussModel.nodes m = [] -> getCenterPt m = m) /\
  (TrussModel.nodes m <> [] ->
   let r := TrussModel.rct (getCenterPt m) in
   getCenterPt m = set_rct m r /\
   In (Rectangle.left r) (node_xs (TrussModel.nodes m)) /\
   In (Rectangle.right r) (node_xs (TrussModel.nodes m)) /\
   In (Rectangle.top r) (node_ys (TrussModel.nodes m)) /\
   In (Rectangle.bottom r) (node_ys (TrussModel.nodes m))).
Proof.
  unfold getCenterPt. split; [intros ->; reflexivity|].
  destruct (TrussModel.nodes m) as [|n0 ns] eqn:En; [congruence|]. intros _.
  cbn [set_rct TrussModel.rct]. split; [reflexivity|].
  apply fold_expand_in.
  - intros n Hn. unfold node_xs, node_ys. split.
    + exact (in_map (fun n => Position.x (Node.position n)) _ _ Hn).
    + exact (in_map (fun n => Position.y (Node.position n)) _ _ Hn).
  - left; reflexivity.
  - left; reflexivity.
  - left; reflexivity.
  - left; reflexivity.
Qed.

(** X14: after [buildScene] on a model with nodes, building the scene again
    from the model it left gives the same model and the same items (the box
    is recomputed from the nodes); without nodes, each build pads the stored
    box by 50 once more. *)
Theorem buildScene_rebuild (py : PyLib) (m m1 : TrussModel.t)
    (ls : list SceneLink) (ns : list SceneNode) :
  buildScene py m = Ok (m1, ls, ns) ->
  (TrussModel.nodes m <> [] -> buildScene py m1 = Ok (m1, ls, ns)) /\
  (TrussModel.nodes m = [] -> TrussModel.rct m1 = pad (TrussModel.rct m)).
Proof.
  unfold buildScene.
  destruct (drawLinks py (buildScene_truss m)) as [ls'|e] eqn:Ed; cbn [bind];
    [|discriminate].
  intros H. injection H as <- <- <-. split.
  - intros Hn.
    assert (E : buildScene_truss (buildScene_truss m) = buildScene_truss m).
    { destruct m as [ti lks nds mat r lr rr]. cbn in Hn.
      destruct nds as [|n0 nds]; [congruence|]. reflexivity. }
    rewrite E, Ed. reflexivity.
  - intros Hn. unfold buildScene_truss, getCenterPt. rewrite Hn. reflexivity.
Qed.

Definition X14_model : TrussModel.t := calcLinkVals demo_py C1_model.

Lemma buildScene_rebuild_witness :
  exists m1 ls ns, buildScene demo_py X14_model = Ok (m1, ls, ns) /\
    buildScene demo_py m1 = Ok (m1, ls, ns).
Proof.
  destruct (buildScene demo_py X14_model) as [[[m1 ls] ns]|e] eqn:E;
    [|vm_compute in E; discriminate].
  exists m1, ls, ns. split; [reflexivity|].
  apply (buildScene_rebuild demo_py X14_model m1 ls ns E). discriminate.
Defined.

(** ** The link items *)

(** Whether both endpoints of a link resolve ([n1 and n2]). *)
Definition resolved (m : TrussModel.t) (l : Link.t) : bool :=
  match TrussModel.getNode m (Link.node1_Name l), TrussModel.getNode m (Link.node2_Name l) with
  | Some _, Some _ => true
  | _, _ => false
  end.

Lemma drawLink_some (py : PyLib) (m : TrussModel.t) (cx cy : float) (l : Link.t)
    (o : option SceneLink) :
  drawLink py m cx cy l = Ok o ->
  match o with Some it => resolved m l = true /\ item_name it = Link.name l
             | None => resolved m l = false end.
Proof.
  unfold drawLink, resolved.
  destruct (TrussModel.getNode m (Link.node1_Name l));
  destruct (TrussModel.getNode m (Link.node2_Name l));
    try (intros H; injection H as <-; reflexivity).
  destruct (format_opt py 3 (Link.length l)); cbn [bind]; [|discriminate].
  intros H. injection H as <-. split; reflexivity.
Qed.

(** X15: when [drawLinks] raises nothing, it draws exactly the links whose
    two endpoints resolve, one item each, in the order of the links, each
    item named after its link. *)
Theorem drawLinks_resolved_links (py : PyLib) (m : TrussModel.t) (its : list SceneLink) :
  drawLinks py m = Ok its ->
  map item_name its = map Link.name (filter (resolved m) (TrussModel.links m)).
Proof.
  unfold drawLinks. generalize (TrussModel.links m) as lks.
  set (cx := Rectangle.centerX (TrussModel.rct m)).
  set (cy := Rectangle.centerY (TrussModel.rct m)).
  intros lks. revert its. induction lks as [|l lks IH]; intros its H.
  - cbn in H. injection H as <-. reflexivity.
  - cbn [drawLinks_aux] in H.
    destruct (drawLink py m cx cy l) as [o|e] eqn:Ed; cbn [bind] in H; [|discriminate].
    destruct (drawLinks_aux py m cx cy lks) as [rest|e] eqn:Er; cbn [bind] in H;
      [|discriminate].
    specialize (IH rest eq_refl). pose proof (drawLink_some _ _ _ _ _ _ Ed) as Hs.
    cbn [filter]. destruct o as [it|]; injection H as <-.
    + destruct Hs as [-> Hn]. cbn [map]. rewrite Hn, IH. reflexivity.
    + rewrite Hs. exact IH.
Qed.

Lemma drawLinks_resolved_links_witness :
  exists its, drawLinks demo_py (calcLinkVals demo_py C2_model) = Ok its /\
    map item_name its =
      map Link.name (filter (resolved (calcLinkVals demo_py C2_model))
                            (TrussModel.links (calcLinkVals demo_py C2_model))).
Proof.
  destruct (drawLinks demo_py (calcLinkVals demo_py C2_model)) as [its|e] eqn:E;
    [|vm_compute in E; discriminate].
  exists its. split; [reflexivity|].
  exact (drawLinks_resolved_links demo_py _ its E).
Defined.

(** X16: [drawLinks] on a model that went through [calcLinkVals] never
    raises: every link it draws has its two endpoints resolved and so was
    given a length. *)
Theorem drawLinks_after_calcLinkVals (py : PyLib) (m : TrussModel.t) :
  exists its, drawLinks py (calcLinkVals py m) = Ok its.
Proof.
  unfold drawLinks.
  set (m' := calcLinkVals py m).
  set (cx := Rectangle.centerX (TrussModel.rct m')).
  set (cy := Rectangle.centerY (TrussModel.rct m')).
  assert (Hd : forall l, In l (TrussModel.links m') -> exists o, drawLink py m' cx cy l = Ok o).
  { intros l' Hl'. cbn in Hl'. apply in_map_iff in Hl' as [l [<- _]].
    unfold drawLink. unfold TrussModel.getNode. cbn [m' calcLinkVals TrussModel.set_links TrussModel.nodes].
    destruct (TrussModel.find_node (TrussModel.nodes m) (Link.node1_Name (calcLink py (TrussModel.nodes m) l))) as [n1|] eqn:E1;
      [|eexists; reflexivity].
    destruct (TrussModel.find_node (TrussModel.nodes m) (Link.node2_Name (calcLink py (TrussModel.nodes m) l))) as [n2|] eqn:E2;
      [|eexists; reflexivity].
    pose proof (calcLink_inputs py (TrussModel.nodes m) l) as Hin.
    unfold link_inputs in Hin. injection Hin as _ Hn1 Hn2 _ _ _.
    rewrite Hn1 in E1. rewrite Hn2 in E2.
    destruct (calcLink_resolved py (TrussModel.nodes m) l) as [len [ang [wt ->]]];
      [congruence|congruence|].
    cbn [Link.length Link.set_derived format_opt bind]. eexists; reflexivity. }
  revert Hd. generalize (TrussModel.links m') as lks.
  induction lks as [|l lks IH]; intros Hd; [eexists; reflexivity|].
  cbn [drawLinks_aux]. destruct (Hd l (or_introl eq_refl)) as [o ->]. cbn [bind].
  destruct IH as [rest ->]; [intros l' Hl'; apply Hd; right; exact Hl'|]. cbn [bind].
  destruct o; eexists; reflexivity.
Qed.

(** ** The report *)

(** A link whose table row cannot be formatted: no length or no angle. *)
Definition bad (l : Link.t) : bool :=
  match Link.length l, Link.angleRad l with
  | Some _, Some _ => false
  | _, _ => true
  end.

Lemma bad_true (l : Link.t) :
  bad l = true <-> Link.length l = None \/ Link.angleRad l = None.
Proof.
  unfold bad. destruct (Link.length l), (Link.angleRad l); split; intros H;
    try discriminate; try reflexivity; auto; destruct H; discriminate.
Qed.

Lemma report_row_spec (py : PyLib) (sf : float -> string) (l : Link.t) :
  (bad l = true /\ report_row py sf l = Error TypeError) \/
  (bad l = false /\ exists s, report_row py sf l = Ok s).
Proof.
  unfold report_row, bad.
  destruct (Link.length l), (Link.angleRad l); cbn [format_opt bind];
    [right; split; [reflexivity|eexists; reflexivity]|left; split; reflexivity..].
Qed.

Lemma report_rows_spec (py : PyLib) (sf : float -> string) (ls : list Link.t) :
  (existsb bad ls = true /\ report_rows py sf ls = Error TypeError) \/
  (existsb bad ls = false /\ exists s, report_rows py sf ls = Ok s).
Proof.
  induction ls as [|l ls IH]; [right; split; [reflexivity|eexists; reflexivity]|].
  cbn [existsb report_rows].
  destruct (report_row_spec py sf l) as [[-> ->]|[-> [s ->]]]; cbn [bind orb];
    [left; split; reflexivity|].
  destruct IH as [[-> ->]|[-> [s' ->]]];
    [left; split; reflexivity|right; split; [reflexivity|eexists; reflexivity]].
Qed.

Lemma longer_in (S : list Link.t) (ls : list Link.t) (acc : Link.t) :
  In acc S -> (forall l, In l ls -> In l S) -> In (fold_left longer ls acc) S.
Proof.
  revert acc. induction ls as [|l ls IH]; intros acc Hacc Hls; [exact Hacc|].
  cbn [fold_left]. apply IH; [|intros l' Hl'; apply Hls; right; exact Hl'].
  unfold longer. destruct (Link.length l), (Link.length acc); try exact Hacc.
  destruct (_ && _ && _); [apply Hls; left; reflexivity|exact Hacc].
Qed.

Lemma displayReport_spec (py : PyLib) (sf : float -> string) (m : TrussModel.t) :
  (existsb bad (TrussModel.links m) = true /\ displayReport py sf m = Error TypeError) \/
  (existsb bad (TrussModel.links m) = false /\ exists r, displayReport py sf m = Ok r).
Proof.
  unfold displayReport.
  destruct (report_rows_spec py sf (TrussModel.links m)) as [[Hb ->]|[Hb [s ->]]];
    [left; split; [exact Hb|reflexivity]|right; split; [exact Hb|]].
  cbn [bind]. destruct (TrussModel.links m) as [|l0 rest] eqn:El; [eexists; reflexivity|].
  assert (Hin : In (fold_left longer (l0 :: rest) l0) (l0 :: rest))
    by (apply longer_in; [left; reflexivity|auto]).
  assert (Hok : bad (fold_left longer (l0 :: rest) l0) = false).
  { destruct (bad (fold_left longer (l0 :: rest) l0)) eqn:E; [|reflexivity].
    assert (H : existsb bad (l0 :: rest) = true)
      by (apply existsb_exists; eauto).
    congruence. }
  unfold bad in Hok.
  destruct (Link.length (fold_left longer (l0 :: rest) l0)); [|discriminate].
  cbn [format_opt bind]. eexists; reflexivity.
Qed.

(** X18: [displayReport] raises TypeError exactly when some link has no
    length or no angle (its row formats them with [{:0.2f}]), and raises
    nothing else. *)
Theorem displayReport_type_error (py : PyLib) (sf : float -> string) (m : TrussModel.t) :
  (displayReport py sf m = Error TypeError <->
   exists l, In l (TrussModel.links m) /\ (Link.length l = None \/ Link.angleRad l = None)) /\
  (forall e, displayReport py sf m = Error e -> e = TypeError).
Proof.
  destruct (displayReport_spec py sf m) as [[Hb E]|[Hb [r E]]]; rewrite E.
  - split; [|intros e H; injection H; auto].
    split; [|reflexivity]. intros _.
    apply existsb_exists in Hb as [l [Hl Hbl]]. exists l. split; [exact Hl|].
    apply bad_true. exact Hbl.
  - split; [|discriminate]. split; [discriminate|].
    intros [l [Hl Hbl]]. apply bad_true in Hbl.
    assert (H : existsb bad (TrussModel.links m) = true)
      by (apply existsb_exists; eauto).
    congruence.
Qed.

Lemma bad_calcLink (py : PyLib) (ns : list Node.t) (l : Link.t) :
  bad (calcLink py ns l) = true <->
  (TrussModel.find_node ns (Link.node1_Name l) = None \/
   TrussModel.find_node ns (Link.node2_Name l) = None) /\ bad l = true.
Proof.
  destruct (TrussModel.find_node ns (Link.node1_Name l)) eqn:E1;
  destruct (TrussModel.find_node ns (Link.node2_Name l)) eqn:E2.
  - destruct (calcLink_resolved py ns l) as [len [ang [wt ->]]]; [congruence|congruence|].
    cbn. split; [discriminate|intros [[H|H] _]; discriminate].
  - rewrite calcLink_unresolved by auto. intuition.
  - rewrite calcLink_unresolved by auto. intuition.
  - rewrite calcLink_unresolved by auto. intuition.
Qed.

(** X19: after [calcLinkVals], [displayReport] raises TypeError exactly
    when some link lacks a length or an angle and has an endpoint that names
    no node (so [calcLinkVals] left it without them). *)
Theorem displayReport_after_calcLinkVals (py : PyLib) (sf : float -> string)
    (m : TrussModel.t) :
  displayReport py sf (calcLinkVals py m) = Error TypeError <->
  exists l, In l (TrussModel.links m) /\
    (TrussModel.find_node (TrussModel.nodes m) (Link.node1_Name l) = None \/
     TrussModel.find_node (TrussModel.nodes m) (Link.node2_Name l) = None) /\
    (Link.length l = None \/ Link.angleRad l = None).
Proof.
  destruct (displayReport_spec py sf (calcLinkVals py m)) as [[Hb E]|[Hb [r E]]];
    rewrite E; cbn [calcLinkVals TrussModel.set_links TrussModel.links] in Hb.
  - split; [intros _|reflexivity].
    apply existsb_exists in Hb as [l' [Hl' Hbl]].
    apply in_map_iff in Hl' as [l [<- Hl]].
    apply bad_calcLink in Hbl as [Hu Hbl]. exists l. split; [exact Hl|].
    split; [exact Hu|apply bad_true; exact Hbl].
  - split; [discriminate|]. intros [l [Hl [Hu Hbl]]].
    assert (H : existsb bad (map (calcLink py (TrussModel.nodes m)) (TrussModel.links m)) = true).
    { apply existsb_exists. exists (calcLink py (TrussModel.nodes m) l).
      split; [apply in_map; exact Hl|].
      apply bad_calcLink. split; [exact Hu|apply bad_true; exact Hbl]. }
    congruence.
Qed.

Lemma longer_zero_first (l0 : Link.t) (z : float) (ls : list Link.t) :
  Link.length l0 = Some z -> (z =? 0) = true -> fold_left longer ls l0 = l0.
Proof.
  intros Hl Hz. induction ls as [|l ls IH]; [reflexivity|].
  cbn [fold_left].
  assert (E : longer l0 l = l0).
  { unfold longer. rewrite Hl, Hz. destruct (Link.length l); [|reflexivity].
    cbn [negb]. rewrite andb_false_r. reflexivity. }
  rewrite E. exact IH.
Qed.

(** X20: the longest link [displayReport] shows (name, length to two
    decimals, node names) is one of the model's links; when the first link
    has length 0 it is the one shown, whatever the other lengths. *)
Theorem displayReport_longest (py : PyLib) (sf : float -> string) (m : TrussModel.t)
    (st nm len a b : string) :
  displayReport py sf m = Ok (st, Some (nm, len, a, b)) ->
  (exists l, In l (TrussModel.links m) /\ Link.name l = nm /\
     format_opt py 2 (Link.length l) = Ok len /\
     Link.node1_Name l = a /\ Link.node2_Name l = b) /\
  (forall l0 rest z, TrussModel.links m = l0 :: rest ->
     Link.length l0 = Some z -> (z =? 0) = true ->
     nm = Link.name l0 /\ a = Link.node1_Name l0 /\ b = Link.node2_Name l0).
Proof.
  unfold displayReport.
  destruct (report_rows py sf (TrussModel.links m)); cbn [bind]; [|discriminate].
  destruct (TrussModel.links m) as [|l0 rest] eqn:El; [discriminate|].
  destruct (format_opt py 2 (Link.length (fold_left longer (l0 :: rest) l0))) as [lenstr|e]
    eqn:Ef; cbn [bind]; [|discriminate].
  intros H. injection H as _ <- <- <- <-. split.
  - exists (fold_left longer (l0 :: rest) l0). split; [|auto].
    apply longer_in; [left; reflexivity|auto].
  - intros l1 rest1 z E Hl Hz. injection E as <- <-.
    pose proof (longer_zero_first l0 z (l0 :: rest) Hl Hz) as Hf.
    cbn [fold_left] in Hf. rewrite Hf. auto.
Qed.

Lemma displayReport_longest_witness :
  exists st nm len a b,
    displayReport demo_py (fun _ => EmptyString) X14_model = Ok (st, Some (nm, len, a, b)) /\
    exists l, In l (TrussModel.links X14_model) /\ Link.name l = nm /\
      format_opt demo_py 2 (Link.length l) = Ok len /\
      Link.node1_Name l = a /\ Link.node2_Name l = b.
Proof.
  destruct (displayReport demo_py (fun _ => EmptyString) X14_model)
    as [[st [[[[nm len] a] b]|]]|e] eqn:E;
    [|vm_compute in E; discriminate|vm_compute in E; discriminate].
  exists st, nm, len, a, b. split; [reflexivity|].
  exact (proj1 (displayReport_longest demo_py _ X14_model st nm len a b E)).
Defined.

(** ** Link comparison *)

(** Whether an optional float is NaN. *)
Definition opt_nan (v : option float) : bool :=
  match v with Some f => is_nan f | None => false end.

(** IEEE equality of two binary64 values: equal values, or two zeros of
    any signs. *)
Lemma SFeqb_true (a b : spec_float) :
  SFeqb a b = true ->
  a = b \/ (exists s1 s2, a = S754_zero s1 /\ b = S754_zero s2).
Proof.
  unfold SFeqb, SFcompare. intros H.
  destruct a as [s1|s1| |s1 m1 e1], b as [s2|s2| |s2 m2 e2];
    try (destruct s1); try (destruct s2); try discriminate.
  all: try (right; eexists _, _; split; reflexivity).
  all: try (left; reflexivity).
  all: destruct (Z.compare e1 e2) eqn:Ee; try discriminate;
      apply Z.compare_eq_iff in Ee; subst e2;
      destruct (Pos.compare_cont Eq m1 m2) eqn:Em; try discriminate;
      change (Pos.compare m1 m2 = Eq) in Em; apply Pos.compare_eq_iff in Em;
      subst m2; left; reflexivity.
Qed.
Lemma SFeqb_sym (a b : spec_float) : SFeqb a b = SFeqb b a.
Proof.
  unfold SFeqb, SFcompare.
  destruct a as [s1|s1| |s1 m1 e1], b as [s2|s2| |s2 m2 e2];
    try (destruct s1); try (destruct s2); try reflexivity;
      rewrite (Z.compare_antisym e1 e2); destruct (Z.compare e1 e2); try reflexivity;
      change (Pos.compare_cont Eq m2 m1) with (Pos.compare m2 m1);
      change (Pos.compare_cont Eq m1 m2) with (Pos.compare m1 m2);
      rewrite (Pos.compare_antisym m1 m2); destruct (Pos.compare m1 m2); reflexivity.
Qed.

Lemma float_eqb_sym (x y : float) : (x =? y) = (y =? x).
Proof. rewrite !eqb_spec. apply SFeqb_sym. Qed.

Lemma float_eqb_trans (x y z : float) : (x =? y) = true -> (y =? z) = true -> (x =? z) = true.
Proof.
  rewrite !eqb_spec. intros Hxy Hyz.
  destruct (SFeqb_true _ _ Hxy) as [E1|[s1 [s2 [E1 E2]]]]; [rewrite E1; exact Hyz|].
  destruct (SFeqb_true _ _ Hyz) as [E3|[s3 [s4 [E3 E4]]]].
  - rewrite <- E3, E1, E2. reflexivity.
  - rewrite E1, E4. reflexivity.
Qed.

Lemma opt_float_ne_sym (a b : option float) : opt_float_ne a b = opt_float_ne b a.
Proof. destruct a, b; cbn; try reflexivity. rewrite float_eqb_sym. reflexivity. Qed.

Lemma opt_string_ne_sym (a b : option string) : opt_string_ne a b = opt_string_ne b a.
Proof. destruct a, b; cbn; try reflexivity. rewrite String.eqb_sym. reflexivity. Qed.

Lemma opt_float_ne_trans (a b c : option float) :
  opt_float_ne a b = false -> opt_float_ne b c = false -> opt_float_ne a c = false.
Proof.
  destruct a as [x|], b as [y|], c as [z|]; cbn; try discriminate; try reflexivity.
  intros H1 H2. apply negb_false_iff in H1, H2. apply negb_false_iff.
  exact (float_eqb_trans x y z H1 H2).
Qed.

Lemma opt_string_ne_trans (a b c : option string) :
  opt_string_ne a b = false -> opt_string_ne b c = false -> opt_string_ne a c = false.
Proof.
  destruct a as [x|], b as [y|], c as [z|]; cbn; try discriminate; try reflexivity.
  intros H1 H2. apply negb_false_iff in H1, H2. apply negb_false_iff.
  apply String.eqb_eq in H1, H2. subst. apply String.eqb_refl.
Qed.

(** [Link.__eq__] returns True exactly when each compared field agrees. *)
Lemma Link_eq_true (a b : Link.t) :
  Link_eq a b = true <->
  String.eqb (Link.node1_Name a) (Link.node1_Name b) = true /\
  String.eqb (Link.node2_Name a) (Link.node2_Name b) = true /\
  opt_float_ne (Link.length a) (Link.length b) = false /\
  opt_float_ne (Link.angleRad a) (Link.angleRad b) = false /\
  opt_string_ne (Link.material a) (Link.material b) = false /\
  opt_float_ne (Link.width a) (Link.width b) = false /\
  opt_float_ne (Link.thickness a) (Link.thickness b) = false.
Proof.
  unfold Link_eq.
  destruct (String.eqb (Link.node1_Name a) (Link.node1_Name b)),
           (String.eqb (Link.node2_Name a) (Link.node2_Name b)),
           (opt_float_ne (Link.length a) (Link.length b)),
           (opt_float_ne (Link.angleRad a) (Link.angleRad b)),
           (opt_string_ne (Link.material a) (Link.material b)),
           (opt_float_ne (Link.width a) (Link.width b)),
           (opt_float_ne (Link.thickness a) (Link.thickness b));
    cbn; split; try (intros; discriminate);
    try (intros [H1 [H2 [H3 [H4 [H5 [H6 H7]]]]]]; discriminate);
    intros _; repeat split.
Qed.

(** A link with its name and weight replaced. *)
Definition relabel (l : Link.t) (nm : string) (w : option float) : Link.t :=
  Link.mk nm (Link.node1_Name l) (Link.node2_Name l) (Link.length l) (Link.angleRad l)
          (Link.material l) (Link.width l) (Link.thickness l) w.

(** X22: [Link.__eq__] is a partial equivalence on links: it is symmetric and
    transitive, and a link is equal to itself exactly when none of its
    length, angle, width and thickness is NaN.  It ignores the names and
    weights of both links. *)
Theorem Link_eq_spec (a b c : Link.t) :
  Link_eq a a = negb (opt_nan (Link.length a) || opt_nan (Link.angleRad a) ||
                      opt_nan (Link.width a) || opt_nan (Link.thickness a)) /\
  Link_eq a b = Link_eq b a /\
  (Link_eq a b = true -> Link_eq b c = true -> Link_eq a c = true) /\
  (forall nm1 w1 nm2 w2, Link_eq (relabel a nm1 w1) (relabel b nm2 w2) = Link_eq a b).
Proof.
  split; [|split; [|split; [|reflexivity]]].
  - destruct a as [nm n1 n2 len ang mat w th wt]. unfold Link_eq. cbn.
    rewrite !String.eqb_refl. cbn.
    assert (Hm : opt_string_ne mat mat = false)
      by (destruct mat; cbn; [rewrite String.eqb_refl|]; reflexivity).
    rewrite Hm.
    destruct len as [f1|], ang as [f2|], w as [f3|], th as [f4|]; cbn; unfold is_nan;
      repeat match goal with |- context [?f =? ?f] => destruct (f =? f) end; reflexivity.
  - unfold Link_eq.
    rewrite (String.eqb_sym (Link.node1_Name a)), (String.eqb_sym (Link.node2_Name a)),
      (opt_float_ne_sym (Link.length a)), (opt_float_ne_sym (Link.angleRad a)),
      (opt_string_ne_sym (Link.material a)), (opt_float_ne_sym (Link.width a)),
      (opt_float_ne_sym (Link.thickness a)).
    reflexivity.
  - rewrite !Link_eq_true.
    intros [A1 [A2 [A3 [A4 [A5 [A6 A7]]]]]] [B1 [B2 [B3 [B4 [B5 [B6 B7]]]]]].
    apply String.eqb_eq in A1, A2, B1, B2.
    rewrite A1, A2, B1, B2, !String.eqb_refl.
    repeat split;
      (eapply opt_float_ne_trans || eapply opt_string_ne_trans); eassumption.
Qed.
